(** * Admin pages of the web front-end: conditional rendering

    A shallow embedding of two page components:
    - the "New Slack Bot Config" page (server component [Page]), and
    - the "Salesforce KB Articles" connector page ([MainSection], [Page]).

    A component is embedded as a function from what its data hooks or
    fetches returned to the element tree it returns.  JavaScript values
    that the code probes dynamically (truthiness, property access,
    optional chaining) are kept as [JsValue]s, and an evaluation that can
    raise is a computation in the [Result] monad.  Purely presentational
    attributes (className, icon sizes) are left out of the trees. *)

From stdpp Require Import base numbers option list gmap strings pretty.

Set Warnings "-register-all".

Open Scope Z_scope.

(** ** JavaScript values *)

Inductive JsValue : Type :=
| JsUndefined
| JsNull
| JsBool (b : bool)
| JsNumber (n : Z)
| JsString (s : string)
| JsObject (props : gmap string JsValue).

(** ToBoolean: [undefined], [null], [false], [0] and the empty string are
    falsy, every object is truthy. *)
Definition truthy (v : JsValue) : bool :=
  match v with
  | JsUndefined | JsNull => false
  | JsBool b => b
  | JsNumber n => negb (n =? 0)
  | JsString s => negb (String.eqb s "")
  | JsObject _ => true
  end.

(** ** Evaluations that may raise *)

Inductive JsError : Type :=
| TypeError (msg : string)
| SyntaxError (msg : string).

Inductive Result (A : Type) : Type :=
| Ok (a : A)
| Throw (e : JsError).
Arguments Ok {A} a.
Arguments Throw {A} e.

#[global] Instance Result_ret : MRet Result := fun A a => Ok a.
#[global] Instance Result_bind : MBind Result := fun A B f m =>
  match m with
  | Ok a => f a
  | Throw e => Throw e
  end.

(** [v.p]: raises on [undefined] and [null]; an absent property reads as
    [undefined].  Primitives have none of the properties read here. *)
Definition get_prop (v : JsValue) (p : string) : Result JsValue :=
  match v with
  | JsUndefined => Throw (TypeError "Cannot read properties of undefined")
  | JsNull => Throw (TypeError "Cannot read properties of null")
  | JsObject props => Ok (default JsUndefined (props !! p))
  | JsBool _ | JsNumber _ | JsString _ => Ok JsUndefined
  end.

(** [v?.p]: short-circuits to [undefined] on [undefined] and [null]. *)
Definition get_prop_opt (v : JsValue) (p : string) : Result JsValue :=
  match v with
  | JsUndefined | JsNull => Ok JsUndefined
  | _ => get_prop v p
  end.

(** [Array.prototype.find]: the first element on which the callback's
    result is truthy; a callback that raises aborts the search. *)
Fixpoint Array_find {A : Type} (pred : A → Result JsValue) (l : list A)
  : Result (option A) :=
  match l with
  | [] => Ok None
  | x :: rest =>
      v ← pred x;
      if truthy v then Ok (Some x) else Array_find pred rest
  end.

(** [Array.prototype.join]: the accumulator [R] receives the separator
    before every element but the one at index 0. *)
Fixpoint join_from (sep : string) (R : string) (k : nat) (l : list string)
  : string :=
  match l with
  | [] => R
  | x :: rest =>
      join_from sep ((if k is O then R else R +:+ sep) +:+ x) (S k) rest
  end.

Definition Array_join (l : list string) (sep : string) : string :=
  join_from sep "" 0 l.

(** An array of strings inside a template literal is converted with
    [Array.prototype.toString], that is [join(",")]. *)
Definition Array_toString (l : list string) : string := Array_join l ",".

(** ** The "New Slack Bot Config" page *)

Module SlackBotConfigNew.

Record DocumentSet := { ds_id : Z; ds_name : string }.
Record Persona := { persona_id : Z; persona_name : string }.

(** A fetch [Response]: its status, what [text()] resolves to and what
    [json()] resolves to (or raises on a body that does not parse). *)
Record Response := {
  status : Z;
  text : string;
  json : Result (list DocumentSet);
}.

(** [Response.ok]: the status is in the range 200-299. *)
Definition ok (r : Response) : bool :=
  (200 <=? status r) && (status r <=? 299).

(** [[Persona[], string | null]] *)
Definition FetchAssistantsResponse : Type := list Persona * option string.

(** Truthiness of a [string | null]. *)
Definition truthy_error (e : option string) : bool :=
  match e with
  | None => false
  | Some s => negb (String.eqb s "")
  end.

Inductive Element : Type :=
| ErrorCallout (errorTitle errorMsg : string)
| Container (children : list Element)
| BackButton
| AdminPageTitle (title : string)
| Text (content : string)
| SlackBotCreationForm (documentSets : list DocumentSet)
                       (personas : list Persona).

(** The page after [Promise.all] has resolved with the document-set
    response and the assistants pair. *)
Definition Page (documentSetsResponse : Response)
    (assistantsResponse : FetchAssistantsResponse) : Result Element :=
  let '(assistants, assistantsFetchError) := assistantsResponse in
  if negb (ok documentSetsResponse) then
    Ok (ErrorCallout "Something went wrong :("
          ("Failed to fetch document sets - " +:+ text documentSetsResponse))
  else
    documentSets ← json documentSetsResponse;
    if truthy_error assistantsFetchError then
      Ok (ErrorCallout "Something went wrong :("
            ("Failed to fetch assistants - "
               +:+ default "null" assistantsFetchError))
    else
      Ok (Container
            [ BackButton;
              AdminPageTitle "New Slack Bot Config";
              Text "Define a new configuration below! This config will determine how Darwin behaves in the specified channels.";
              SlackBotCreationForm documentSets assistants ]).

(** The elements of a tree, the root first. *)
Fixpoint nodes (e : Element) : list Element :=
  e :: match e with
       | Container children => concat (map nodes children)
       | _ => []
       end.

(** [needle] occurs in [s]. *)
Definition contains_text (s needle : string) : Prop :=
  ∃ before after, s = before +:+ needle +:+ after.

(** A failed document-set fetch. *)
Definition bad_gateway : Response :=
  {| status := 502;
     text := "upstream unavailable";
     json := Throw (SyntaxError "Unexpected token u") |}.

Definition is_creation_form (e : Element) : bool :=
  match e with SlackBotCreationForm _ _ => true | _ => false end.

Definition renders (what : Element → bool) (tree : Element) : bool :=
  existsb what (nodes tree).

Definition is_error_callout (e : Element) : bool :=
  match e with ErrorCallout _ _ => true | _ => false end.

(** A successful document-set fetch, and one whose body does not parse. *)
Definition two_document_sets : Response :=
  {| status := 200;
     text := "[{...}, {...}]";
     json := Ok [ {| ds_id := 1; ds_name := "Engineering" |};
                  {| ds_id := 2; ds_name := "Support" |} ] |}.

Definition truncated_body : Response :=
  {| status := 200;
     text := "[{";
     json := Throw (SyntaxError "Unexpected end of JSON input") |}.

Definition default_persona : Persona :=
  {| persona_id := 0; persona_name := "Default" |}.

End SlackBotConfigNew.

(** ** The "Salesforce KB Articles" connector page *)

Module SfKbArticles.

(** *** Records of the backend API *)

(** Modelled from the spec: the connector-specific configuration, declared
    in the shared types module, is a list of requested product-component
    names. *)
Record SfKbArticlesConfig := { requested_objects : list string }.

(** Modelled from the spec: a connector has an opaque id, a [source] tag,
    a connector-specific configuration and a poll interval. *)
Record Connector := {
  connector_id : Z;
  name : string;
  source : string;
  input_type : string;
  connector_specific_config : SfKbArticlesConfig;
  refresh_freq : option Z;
}.

(** Modelled from the spec: an indexing status joins a connector with
    its indexing state. *)
Record ConnectorIndexingStatus := {
  cc_pair_id : Z;
  connector : Connector;
}.

(** Modelled from the spec: a credential has an opaque id and a JSON
    payload.  The payload is whatever the backend stored (credentials
    of every connector kind are listed), so it stays a [JsValue]. *)
Record Credential := {
  id : Z;
  credential_json : JsValue;
}.

(** *** Event handlers *)

(** The calls a handler of this page makes. *)
Inductive Effect : Type :=
| adminDeleteCredential (credentialId : Z)
| refreshCredentials
| linkCredential (connectorId credentialId : Z)
| mutate (key : string).

(** The body of an (async) handler: a sequence of calls, each one either
    fired without waiting or awaited. *)
Inductive Async : Type :=
| Return
| Call (e : Effect) (next : Async)
| Await (e : Effect) (next : Async).

Inductive Settlement : Type := Fulfilled | Rejected.

Inductive Event : Type :=
| Invoked (e : Effect)
| Settled (e : Effect) (how : Settlement).

(** Running a handler against an environment that settles each awaited
    call: [await] on a rejected promise raises, and with no [try] around
    it the rest of the handler is skipped. *)
Fixpoint run (env : Effect → Settlement) (body : Async)
  : list Event * Settlement :=
  match body with
  | Return => ([], Fulfilled)
  | Call e next =>
      let '(trace, outcome) := run env next in (Invoked e :: trace, outcome)
  | Await e next =>
      match env e with
      | Fulfilled =>
          let '(trace, outcome) := run env next in
          (Invoked e :: Settled e Fulfilled :: trace, outcome)
      | Rejected => ([Invoked e; Settled e Rejected], Rejected)
      end
  end.

(** *** Elements *)

Record TextFormField := {
  tf_name : string;
  tf_label : string;
  tf_type : string;
}.

Record CredentialFormProps := {
  formBody : list TextFormField;
  cred_validationSchema : list (string * string);
  cred_initialValues : list (string * string);
  onSubmit : bool → Async;
}.

Record SpecialColumn := {
  header : string;
  key : string;
  getValue : ConnectorIndexingStatus → string;
}.

Record ConnectorsTableProps := {
  ct_connectorIndexingStatuses : list ConnectorIndexingStatus;
  liveCredential : option Credential;
  getCredential : Credential → Result JsValue;
  onUpdate : Async;
  onCredentialLink : Z → Async;
  specialColumns : list SpecialColumn;
  includeName : bool;
}.

(** The help text of the array field is left out. *)
Record TextArrayField := {
  taf_name : string;
  taf_label : string;
}.

Record ConnectorFormProps := {
  nameBuilder : SfKbArticlesConfig → string;
  ccPairNameBuilder : SfKbArticlesConfig → string;
  cf_source : string;
  inputType : string;
  formBodyBuilder : TextArrayField;
  cf_validationSchema : list (string * string);
  cf_initialValues : SfKbArticlesConfig;
  credentialId : Z;
  refreshFreq : Z;
}.

Inductive Element : Type :=
| LoadingAnimation (text : string)
| Div (children : list Element)
| Fragment (children : list Element)
| Text (children : list Element)
| Title (children : list Element)
| Card (children : list Element)
| Str (s : string)
| Expr (v : JsValue)
| Nothing
| Button (onClick : Async) (children : list Element)
| TrashIcon
| HealthCheckBanner
| AdminPageTitle (title : string)
| CredentialForm (props : CredentialFormProps)
| ConnectorsTable (props : ConnectorsTableProps)
| ConnectorForm (props : ConnectorFormProps).

(** *** The hooks' results *)

(** What [useSWR] and [usePublicCredentials] returned for this render;
    an [error] is any value and is tested for truthiness. *)
Record Hooks := {
  connectorIndexingStatuses : option (list ConnectorIndexingStatus);
  isConnectorIndexingStatusesLoading : bool;
  isConnectorIndexingStatusesError : JsValue;
  credentialsData : option (list Credential);
  isCredentialsLoading : bool;
  isCredentialsError : JsValue;
}.

(** *** The component *)

Definition is_undefined {A : Type} (data : option A) : bool :=
  match data with None => true | Some _ => false end.

Definition indexing_status_key : string :=
  "/api/manage/admin/connector/indexing-status".

(** [connectorIndexingStatuses.filter(s => s.connector.source === "salesforce")] *)
Definition SalesforceConnectorIndexingStatuses
    (connectorIndexingStatuses : list ConnectorIndexingStatus)
  : list ConnectorIndexingStatus :=
  filter (λ connectorIndexingStatus,
            source (connector connectorIndexingStatus) = "salesforce")
         connectorIndexingStatuses.

(** The callback of the search: [c => c.credential_json?.sf_username]. *)
Definition sf_username_probe (credential : Credential) : Result JsValue :=
  get_prop_opt (credential_json credential) "sf_username".

(** [credentialsData.find(c => c.credential_json?.sf_username)] *)
Definition SfKbArticlesCredential (credentialsData : list Credential)
  : Result (option Credential) :=
  Array_find sf_username_probe credentialsData.

(** The trash button's [onClick]. *)
Definition deleteCredential_onClick (SfKbArticlesCredential : Credential)
  : Async :=
  Await (adminDeleteCredential (id SfKbArticlesCredential))
    (Call refreshCredentials Return).

Definition credentialForm_props : CredentialFormProps := {|
  formBody :=
    [ {| tf_name := "sf_client_id"; tf_label := "Salesforce Client Id:";
         tf_type := "text" |};
      {| tf_name := "sf_client_secret";
         tf_label := "Salesforce Client Secret:"; tf_type := "password" |};
      {| tf_name := "sf_username"; tf_label := "Salesforce Username:";
         tf_type := "text" |};
      {| tf_name := "sf_password"; tf_label := "Salesforce Password:";
         tf_type := "password" |} ];
  cred_validationSchema :=
    [ ("sf_client_id", "Please enter your Salesforce Client Id");
      ("sf_client_secret", "Please enter your Salesforce Client Secret");
      ("sf_username", "Please enter your Salesforce username");
      ("sf_password", "Please enter your Salesforce password") ];
  cred_initialValues :=
    [ ("sf_client_id", ""); ("sf_client_secret", "");
      ("sf_username", ""); ("sf_password", "") ];
  onSubmit := λ isSuccess,
    if isSuccess then Call refreshCredentials Return else Return;
|}.

(** Step 1: the existing credential, or the form to enter one. *)
Definition Step1 (SfKbArticlesCredential : option Credential)
  : Result Element :=
  match SfKbArticlesCredential with
  | Some credential =>
      sf_username ← get_prop (credential_json credential) "sf_username";
      Ok (Fragment
            [ Div
                [ Text [Str "Existing SalesForce Username: "];
                  Text [Expr sf_username];
                  Button (deleteCredential_onClick credential)
                    [TrashIcon] ] ])
  | None =>
      Ok (Fragment
            [ Text [Str "As a first step, please provide the Salesforce account's client_id, client_secret, username and password."];
              Card [CredentialForm credentialForm_props] ])
  end.

Definition connectorsTable_props
    (SalesforceConnectorIndexingStatuses : list ConnectorIndexingStatus)
    (SfKbArticlesCredential : option Credential) : ConnectorsTableProps := {|
  ct_connectorIndexingStatuses := SalesforceConnectorIndexingStatuses;
  liveCredential := SfKbArticlesCredential;
  getCredential := λ credential,
    get_prop (credential_json credential) "sf_client_secret";
  onUpdate := Call (mutate indexing_status_key) Return;
  onCredentialLink := λ connectorId,
    match SfKbArticlesCredential with
    | Some credential =>
        Await (linkCredential connectorId (id credential))
          (Call (mutate indexing_status_key) Return)
    | None => Return
    end;
  specialColumns :=
    [ {| header := "Connectors";
         key := "connectors";
         getValue := λ ccPairStatus,
           let connectorConfig :=
             connector_specific_config (connector ccPairStatus) in
           Array_toString (requested_objects connectorConfig) |} ];
  includeName := true;
|}.

(** Step 2, first part: the table, rendered when the filtered list is
    not empty ([cond && ...] is [false] otherwise, which renders as
    nothing). *)
Definition Step2Table
    (SalesforceConnectorIndexingStatuses : list ConnectorIndexingStatus)
    (SfKbArticlesCredential : option Credential) : Element :=
  if bool_decide (0 < length SalesforceConnectorIndexingStatuses)%nat then
    Fragment
      [ Text [Str "The latest state of your Salesforce objects are fetched every 10 minutes."];
        Div [ConnectorsTable
               (connectorsTable_props SalesforceConnectorIndexingStatuses
                  SfKbArticlesCredential)] ]
  else Nothing.

Definition sfKbArticles_name (values : SfKbArticlesConfig) : string :=
  if bool_decide (0 < length (requested_objects values))%nat
  then "SfKbArticles-" +:+ Array_join (requested_objects values) "-"
  else "SfKbArticles".

Definition connectorForm_props (SfKbArticlesCredential : Credential)
  : ConnectorFormProps := {|
  nameBuilder := sfKbArticles_name;
  ccPairNameBuilder := sfKbArticles_name;
  cf_source := "sfkbarticles";
  inputType := "poll";
  formBodyBuilder :=
    {| taf_name := "requested_objects";
       taf_label := "Specify the Product Components" |};
  cf_validationSchema :=
    [ ("requested_objects",
       "Salesforce Product Component names must be strings") ];
  cf_initialValues := {| requested_objects := [] |};
  credentialId := id SfKbArticlesCredential;
  refreshFreq := 10 * 60;
|}.

(** Step 2, second part: the connector form, or a hint to do step 1. *)
Definition Step2Form (SfKbArticlesCredential : option Credential)
  : Element :=
  match SfKbArticlesCredential with
  | Some credential => Card [ConnectorForm (connectorForm_props credential)]
  | None =>
      Text [Str "Please provide all Salesforce info in Step 1 first! Once you're done with that, you can then specify the product components for which you want to fetch the Salesforce Knowledge Base articles."]
  end.

Definition Intro : Element :=
  Text [Str "The Salesforce Knowledge Base Articles connector allows you to index and search through your Salesforce Knowledge Base. Once setup, all indicated Salesforce data will be queryable within Darwin."].
Definition Step1Title : Element :=
  Title [Str "Step 1: Provide Salesforce credentials"].
Definition Step2Title : Element :=
  Title [Str "Step 2: Manage Salesforce KB Articles Connector"].

Definition MainSection (hooks : Hooks) : Result Element :=
  if is_undefined (connectorIndexingStatuses hooks)
       && isConnectorIndexingStatusesLoading hooks
     || is_undefined (credentialsData hooks) && isCredentialsLoading hooks
  then Ok (LoadingAnimation "Loading")
  else
    match connectorIndexingStatuses hooks with
    | None => Ok (Div [Str "Failed to load connectors"])
    | Some connectorIndexingStatuses =>
    if truthy (isConnectorIndexingStatusesError hooks)
    then Ok (Div [Str "Failed to load connectors"])
    else
    match credentialsData hooks with
    | None => Ok (Div [Str "Failed to load credentials"])
    | Some credentialsData =>
    if truthy (isCredentialsError hooks)
    then Ok (Div [Str "Failed to load credentials"])
    else
      let statuses :=
        SalesforceConnectorIndexingStatuses connectorIndexingStatuses in
      credential ← SfKbArticlesCredential credentialsData;
      step1 ← Step1 credential;
      Ok (Fragment
            [ Intro;
              Step1Title;
              step1;
              Step2Title;
              Step2Table statuses credential;
              Step2Form credential ])
    end
    end.

Definition Page (hooks : Hooks) : Result Element :=
  main ← MainSection hooks;
  Ok (Div [ Div [HealthCheckBanner];
            AdminPageTitle "Salesforce KB Articles";
            main ]).

(** *** Inspecting a tree *)

(** The elements of a tree, the root first. *)
Fixpoint nodes (e : Element) : list Element :=
  e :: match e with
       | Div children | Fragment children | Text children
       | Title children | Card children | Button _ children =>
           concat (map nodes children)
       | _ => []
       end.

Definition is_credential_form (e : Element) : bool :=
  match e with CredentialForm _ => true | _ => false end.
Definition is_connector_form (e : Element) : bool :=
  match e with ConnectorForm _ => true | _ => false end.
Definition is_connectors_table (e : Element) : bool :=
  match e with ConnectorsTable _ => true | _ => false end.
(** The summary of the existing credential: its username line with the
    trash button. *)
Definition is_credential_summary (e : Element) : bool :=
  match e with
  | Div (Text [Str "Existing SalesForce Username: "] :: _) => true
  | _ => false
  end.
Definition is_button (e : Element) : bool :=
  match e with Button _ _ => true | _ => false end.

Definition renders (what : Element → bool) (tree : Element) : bool :=
  existsb what (nodes tree).

(** *** Vocabulary of the properties *)

(** The payload of a credential is an object with a truthy
    [sf_username] field. *)
Definition has_truthy_sf_username (c : Credential) : Prop :=
  ∃ props v,
    credential_json c = JsObject props
    ∧ props !! "sf_username" = Some v
    ∧ truthy v = true.

(** [c] sits at index [i] of [creds], it has a truthy username and no
    credential before it has one. *)
Definition first_with_username (creds : list Credential) (i : nat)
    (c : Credential) : Prop :=
  creds !! i = Some c
  ∧ has_truthy_sf_username c
  ∧ ∀ j c', (j < i)%nat → creds !! j = Some c' → ¬ has_truthy_sf_username c'.

(** Both fetches have delivered data and report no error. *)
Definition fetched (hooks : Hooks) (statuses : list ConnectorIndexingStatus)
    (creds : list Credential) : Prop :=
  connectorIndexingStatuses hooks = Some statuses
  ∧ truthy (isConnectorIndexingStatusesError hooks) = false
  ∧ credentialsData hooks = Some creds
  ∧ truthy (isCredentialsError hooks) = false.

(** A fetch is still on its first load: in flight, with nothing cached. *)
Definition first_load (hooks : Hooks) : bool :=
  is_undefined (connectorIndexingStatuses hooks)
    && isConnectorIndexingStatusesLoading hooks
  || is_undefined (credentialsData hooks) && isCredentialsLoading hooks.

(** The indexing-status fetch failed: it reports an error or has no
    data; likewise for the credentials fetch. *)
Definition statuses_failed (hooks : Hooks) : bool :=
  truthy (isConnectorIndexingStatusesError hooks)
  || is_undefined (connectorIndexingStatuses hooks).
Definition credentials_failed (hooks : Hooks) : bool :=
  truthy (isCredentialsError hooks) || is_undefined (credentialsData hooks).

(** The tree of a render in which both fetches succeeded. *)
Definition MainView (statuses : list ConnectorIndexingStatus)
    (credential : option Credential) (step1 : Element) : Element :=
  Fragment
    [ Intro; Step1Title; step1; Step2Title;
      Step2Table (SalesforceConnectorIndexingStatuses statuses) credential;
      Step2Form credential ].

(** [l] merges [l1] and [l2], keeping the order inside each. *)
Inductive interleave {A : Type} : list A → list A → list A → Prop :=
| interleave_nil : interleave [] [] []
| interleave_left x l1 l2 l :
    interleave l1 l2 l → interleave (x :: l1) l2 (x :: l)
| interleave_right x l1 l2 l :
    interleave l1 l2 l → interleave l1 (x :: l2) (x :: l).


(** The statement that any error, or any load that ended without data,
    yields the failure message. *)
Definition failure_message_on_any_error (hooks : Hooks) : Prop :=
  truthy (isConnectorIndexingStatusesError hooks) = true
  ∨ truthy (isCredentialsError hooks) = true
  ∨ (connectorIndexingStatuses hooks = None
     ∧ isConnectorIndexingStatusesLoading hooks = false)
  ∨ (credentialsData hooks = None ∧ isCredentialsLoading hooks = false) →
  ∃ msg tree,
    MainSection hooks = Ok tree
    ∧ tree = Div [Str msg]
    ∧ (msg = "Failed to load connectors"
       ∨ msg = "Failed to load credentials")
    ∧ renders is_credential_form tree = false
    ∧ renders is_connector_form tree = false
    ∧ renders is_connectors_table tree = false.

(** *** Sample data *)

Definition fetch_error : JsValue :=
  JsObject {[ "message" := JsString "Network Error" ]}.

Definition sf_credential : Credential :=
  {| id := 7;
     credential_json :=
       JsObject (<[ "sf_username" := JsString "admin@example.com" ]>
                 (<[ "sf_password" := JsString "hunter2" ]> ∅)) |}.

Definition github_credential : Credential :=
  {| id := 3;
     credential_json :=
       JsObject {[ "github_access_token" := JsString "ghp_abc" ]} |}.

Definition empty_credential : Credential :=
  {| id := 4; credential_json := JsNull |}.

Definition status_of (cc : Z) (src : string) (objects : list string)
  : ConnectorIndexingStatus :=
  {| cc_pair_id := cc;
     connector :=
       {| connector_id := cc; name := "SfKbArticles"; source := src;
          input_type := "poll";
          connector_specific_config := {| requested_objects := objects |};
          refresh_freq := Some 600 |} |}.

Definition salesforce_status : ConnectorIndexingStatus :=
  status_of 1 "salesforce" ["Orchestrator"; "Studio"].
Definition sfkbarticles_status : ConnectorIndexingStatus :=
  status_of 2 "sfkbarticles" ["Robot"].
Definition web_status : ConnectorIndexingStatus :=
  status_of 5 "web" [].

Definition hooks_of (statuses : list ConnectorIndexingStatus)
    (creds : list Credential) : Hooks :=
  {| connectorIndexingStatuses := Some statuses;
     isConnectorIndexingStatusesLoading := false;
     isConnectorIndexingStatusesError := JsUndefined;
     credentialsData := Some creds;
     isCredentialsLoading := false;
     isCredentialsError := JsUndefined |}.

(** A credential and a Salesforce connector are both in place. *)
Definition configured : Hooks :=
  hooks_of [web_status; salesforce_status]
           [github_credential; sf_credential].

(** The credentials fetch has failed while the indexing statuses are
    still on their first load. *)
Definition error_during_first_load : Hooks :=
  {| connectorIndexingStatuses := None;
     isConnectorIndexingStatusesLoading := true;
     isConnectorIndexingStatusesError := JsUndefined;
     credentialsData := None;
     isCredentialsLoading := false;
     isCredentialsError := fetch_error |}.

(** The credentials fetch has failed after both loads ended. *)
Definition credentials_error : Hooks :=
  {| connectorIndexingStatuses := Some [salesforce_status];
     isConnectorIndexingStatusesLoading := false;
     isConnectorIndexingStatusesError := JsUndefined;
     credentialsData := Some [sf_credential];
     isCredentialsLoading := false;
     isCredentialsError := fetch_error |}.

(** Credentials are stored, none of them for Salesforce. *)
Definition no_salesforce_credential : Hooks :=
  hooks_of [web_status] [github_credential; empty_credential].

Definition step1_of (selected : option Credential) : Element :=
  match Step1 selected with
  | Ok step1 => step1
  | Throw _ => Nothing
  end.

(** The tree of the render on [configured]. *)
Definition configured_tree : Element :=
  MainView [web_status; salesforce_status] (Some sf_credential)
    (step1_of (Some sf_credential)).

Definition all_fulfilled : Effect → Settlement := λ _, Fulfilled.

(** The calls a trace records, in order. *)
Definition invoked (trace : list Event) : list Effect :=
  omap (λ ev, match ev with Invoked e => Some e | Settled _ _ => None end)
       trace.

Definition is_expr (e : Element) : bool :=
  match e with Expr _ => true | _ => false end.

(** A Salesforce connector exists and no Salesforce credential is stored. *)
Definition connector_without_credential : Hooks :=
  hooks_of [salesforce_status; web_status] [github_credential].

(** The trees of the renders on the sample states. *)
Definition no_salesforce_credential_tree : Element :=
  MainView [web_status] None (step1_of None).
Definition connector_without_credential_tree : Element :=
  MainView [salesforce_status; web_status] None (step1_of None).

(** The same state as [configured] during a revalidation, with further
    records the page has no use for. *)
Definition configured_revalidating : Hooks :=
  {| connectorIndexingStatuses :=
       Some [sfkbarticles_status; web_status; salesforce_status];
     isConnectorIndexingStatusesLoading := true;
     isConnectorIndexingStatusesError := JsNull;
     credentialsData :=
       Some [empty_credential; sf_credential; github_credential];
     isCredentialsLoading := true;
     isCredentialsError := JsString "" |}.

(** Nothing has been fetched yet. *)
Definition initial_load : Hooks :=
  {| connectorIndexingStatuses := None;
     isConnectorIndexingStatusesLoading := true;
     isConnectorIndexingStatusesError := JsUndefined;
     credentialsData := None;
     isCredentialsLoading := true;
     isCredentialsError := JsUndefined |}.

(** The linking call rejects. *)
Definition link_rejected : Effect → Settlement := λ e,
  match e with
  | linkCredential _ _ => Rejected
  | _ => Fulfilled
  end.

(** The network is down: the deletion call rejects. *)
Definition delete_rejected : Effect → Settlement := λ e,
  match e with
  | adminDeleteCredential _ => Rejected
  | _ => Fulfilled
  end.

(** The same hooks with another list of fetched credentials. *)
Definition with_credentials (hooks : Hooks) (creds : list Credential)
  : Hooks :=
  {| connectorIndexingStatuses := connectorIndexingStatuses hooks;
     isConnectorIndexingStatusesLoading :=
       isConnectorIndexingStatusesLoading hooks;
     isConnectorIndexingStatusesError :=
       isConnectorIndexingStatusesError hooks;
     credentialsData := Some creds;
     isCredentialsLoading := isCredentialsLoading hooks;
     isCredentialsError := isCredentialsError hooks |}.

(** The statement that, in any state, the first credential with a truthy
    username is the selected one and a list without such a credential
    gives the credential form and no summary. *)
Definition first_match_selected_in_every_state (hooks : Hooks) : Prop :=
  ∀ creds,
    credentialsData hooks = Some creds →
    (∀ c, SfKbArticlesCredential creds = Ok (Some c)
          ↔ ∃ i, first_with_username creds i c)
    ∧ (Forall (λ c, ¬ has_truthy_sf_username c) creds →
       ∃ tree,
         MainSection hooks = Ok tree
         ∧ renders is_credential_form tree = true
         ∧ renders is_credential_summary tree = false).

(** The statement that every click on the delete button, whatever becomes
    of the deletion call, makes one deletion call for the selected
    credential and then one credential re-fetch. *)
Definition every_click_deletes_then_refetches (hooks : Hooks)
    (env : Effect → Settlement) : Prop :=
  ∀ tree onClick children,
    MainSection hooks = Ok tree →
    Button onClick children ∈ nodes tree →
    ∃ creds c,
      credentialsData hooks = Some creds
      ∧ SfKbArticlesCredential creds = Ok (Some c)
      ∧ invoked (run env onClick).1
        = [adminDeleteCredential (id c); refreshCredentials].

(** A second Salesforce credential, stored after the first. *)
Definition second_sf_credential : Credential :=
  {| id := 9;
     credential_json :=
       JsObject {[ "sf_username" := JsString "second@example.com" ]} |}.

Definition two_salesforce_credentials : Hooks :=
  hooks_of [salesforce_status]
    [ github_credential; empty_credential; sf_credential;
      second_sf_credential ].

(** No credential has a username, and the indexing-status fetch failed. *)
Definition status_fetch_failed : Hooks :=
  {| connectorIndexingStatuses := None;
     isConnectorIndexingStatusesLoading := false;
     isConnectorIndexingStatusesError := fetch_error;
     credentialsData := Some [github_credential; empty_credential];
     isCredentialsLoading := false;
     isCredentialsError := JsUndefined |}.

End SfKbArticles.

(** ** Display components: the card section and the tooltip wrappers *)

Module AdminComponents.

(** The string a template literal puts in for a value.  Numbers are the
    integers a [JsNumber] holds, printed in decimal, and objects have no
    [toString] of their own. *)
Definition ToString (v : JsValue) : string :=
  match v with
  | JsUndefined => "undefined"
  | JsNull => "null"
  | JsBool true => "true"
  | JsBool false => "false"
  | JsNumber n => pretty n
  | JsString s => s
  | JsObject _ => "[object Object]"
  end.

(** [a || b] *)
Definition js_or (a b : JsValue) : JsValue := if truthy a then a else b.

(** Destructuring a props object: a key that is absent reads as
    [undefined], and a default value stands in for [undefined] only. *)
Definition prop (props : gmap string JsValue) (k : string) : JsValue :=
  default JsUndefined (props !! k).

Definition prop_default (props : gmap string JsValue) (k : string)
    (d : JsValue) : JsValue :=
  match prop props k with
  | JsUndefined => d
  | v => v
  end.

Inductive Element : Type :=
| div (className : string) (children : JsValue)
| TooltipPrimitive_Trigger (ref : JsValue) (attrs : gmap string JsValue)
| TooltipPrimitive_Content (ref : JsValue) (attrs : gmap string JsValue).

(** The line feed. *)
Definition newline : string := String (Ascii.ascii_of_nat 10) "".

(** The template literal of the content panel's classes. *)
Definition tooltip_classes (backgroundColor width : JsValue) : string :=
  "z-[100] overflow-hidden rounded-md text-neutral-50 "
  +:+ ToString
        (js_or backgroundColor
           (JsString "bg-neutral-900 dark:bg-neutral-200 dark:text-neutral-900"))
  +:+ newline +:+ "      "
  +:+ ToString (js_or width (JsString "max-w-40"))
  +:+ newline +:+ "      "
  +:+ newline
  +:+ "       px-2 py-1.5 text-xs shadow-md animate-in fade-in-0 zoom-in-95 data-[state=closed]:animate-out data-[state=closed]:fade-out-0 data-[state=closed]:zoom-out-95 data-[side=bottom]:slide-in-from-top-2 data-[side=left]:slide-in-from-right-2 data-[side=right]:slide-in-from-left-2 data-[side=top]:slide-in-from-bottom-2".

Section WithClassNames.

(** The class-name merger of the utilities module, which is not part of
    these files. *)
Variable cn : list JsValue → string.

(** [CardSection({ children, className })] *)
Definition CardSection (props : gmap string JsValue) : Element :=
  let children := prop props "children" in
  let className := prop props "className" in
  div (cn [ JsString "p-6 border bg-neutral-50 dark:bg-neutral-800 rounded border-border-strong/80";
            className ])
      children.

(** [TooltipTrigger]: [({ type = "button", ...props }, ref)]; the element
    gets [type] first and the spread of the remaining props after it. *)
Definition TooltipTrigger (props : gmap string JsValue) (ref : JsValue)
  : Element :=
  let type := prop_default props "type" (JsString "button") in
  let rest := delete "type" props in
  TooltipPrimitive_Trigger ref (rest ∪ {[ "type" := type ]}).

(** [TooltipContent]:
    [({ className, sideOffset = 4, width, backgroundColor, ...props }, ref)];
    the element gets [sideOffset] and [className] first and the spread of
    the remaining props after them. *)
Definition TooltipContent (props : gmap string JsValue) (ref : JsValue)
  : Element :=
  let className := prop props "className" in
  let sideOffset := prop_default props "sideOffset" (JsNumber 4) in
  let width := prop props "width" in
  let backgroundColor := prop props "backgroundColor" in
  let rest :=
    delete "className"
      (delete "sideOffset"
         (delete "width" (delete "backgroundColor" props))) in
  TooltipPrimitive_Content ref
    (rest
       ∪ <[ "sideOffset" := sideOffset ]>
           {[ "className" :=
                JsString
                  (cn [ JsString (tooltip_classes backgroundColor width);
                        className ]) ]}).

End WithClassNames.

(** A merger for the samples: the truthy inputs, separated by spaces. *)
Definition join_truthy (inputs : list JsValue) : string :=
  String.concat " " (map ToString (filter (λ v, truthy v = true) inputs)).

Definition attrs_of (e : Element) : gmap string JsValue :=
  match e with
  | div _ _ => ∅
  | TooltipPrimitive_Trigger _ attrs | TooltipPrimitive_Content _ attrs =>
      attrs
  end.

End AdminComponents.

(** * Properties *)

(** Two facts on string concatenation used below. *)
Lemma append_empty_r (s : string) : s +:+ "" = s.
Proof.
  induction s as [|a s IH]; [done |].
  change (String a (s +:+ "") = String a s). by rewrite IH.
Qed.

Lemma append_assoc (s1 s2 s3 : string) : (s1 +:+ s2) +:+ s3 = s1 +:+ s2 +:+ s3.
Proof.
  induction s1 as [|a s1 IH]; [done |].
  change (String a ((s1 +:+ s2) +:+ s3) = String a (s1 +:+ s2 +:+ s3)).
  by rewrite IH.
Qed.


(** [join] agrees with the usual separator-between-elements
    concatenation. *)
Lemma join_from_S (sep R : string) (k : nat) (l : list string) :
  join_from sep R (S k) l
  = R +:+ String.concat "" (map (λ x, sep +:+ x) l).
Proof.
  revert R k. induction l as [|x rest IH]; intros R k.
  - simpl. by rewrite append_empty_r.
  - change (join_from sep R (S k) (x :: rest))
      with (join_from sep ((R +:+ sep) +:+ x) (S (S k)) rest).
    rewrite IH. rewrite !append_assoc.
    destruct rest as [|y rest]; simpl.
    + by rewrite !append_empty_r.
    + by rewrite !append_assoc.
Qed.

Lemma concat_sep (sep x : string) (l : list string) :
  String.concat sep (x :: l)
  = x +:+ String.concat "" (map (λ y, sep +:+ y) l).
Proof.
  revert x. induction l as [|y rest IH]; intros x.
  - simpl. by rewrite append_empty_r.
  - change (String.concat sep (x :: y :: rest))
      with (x +:+ sep +:+ String.concat sep (y :: rest)).
    rewrite IH.
    destruct rest as [|z rest]; simpl.
    + by rewrite !append_empty_r.
    + by rewrite !append_assoc.
Qed.

Lemma Array_join_concat (l : list string) (sep : string) :
  Array_join l sep = String.concat sep l.
Proof.
  destruct l as [|x rest]; [done |].
  unfold Array_join.
  change (join_from sep "" 0 (x :: rest))
    with (join_from sep ("" +:+ x) 1 rest).
  by rewrite join_from_S, concat_sep.
Qed.

(** ** The "New Slack Bot Config" page *)

Section SlackBotConfigNew_properties.
Import SlackBotConfigNew.

(** C6. When the document-set response has a non-success status, the page
    is an error callout whose message contains the response body text,
    and no creation form is rendered, whatever the assistants fetch
    returned. *)
Theorem document_set_failure_renders_callout
    (documentSetsResponse : Response)
    (assistantsResponse : FetchAssistantsResponse) :
  ¬ (200 ≤ status documentSetsResponse ≤ 299) →
  ∃ errorTitle errorMsg,
    Page documentSetsResponse assistantsResponse
      = Ok (ErrorCallout errorTitle errorMsg)
    ∧ errorMsg
      = "Failed to fetch document sets - " +:+ text documentSetsResponse
    ∧ contains_text errorMsg (text documentSetsResponse)
    ∧ renders is_creation_form (ErrorCallout errorTitle errorMsg) = false.
Proof.
  intros Hstatus.
  destruct assistantsResponse as [assistants assistantsFetchError].
  assert (Hok : ok documentSetsResponse = false).
  { unfold ok. apply andb_false_iff.
    destruct (Z.leb_spec 200 (status documentSetsResponse)) as [Hlo|Hlo];
      [right | by left].
    apply Z.leb_gt. lia. }
  exists "Something went wrong :(",
    ("Failed to fetch document sets - " +:+ text documentSetsResponse).
  unfold Page. rewrite Hok. simpl.
  repeat split.
  exists "Failed to fetch document sets - ", "".
  by rewrite append_empty_r.
Qed.

Lemma document_set_failure_renders_callout_witness :
  ¬ (200 ≤ status bad_gateway ≤ 299)
  ∧ ∃ errorTitle errorMsg,
      Page bad_gateway ([], None) = Ok (ErrorCallout errorTitle errorMsg)
      ∧ errorMsg = "Failed to fetch document sets - " +:+ text bad_gateway
      ∧ contains_text errorMsg (text bad_gateway)
      ∧ renders is_creation_form (ErrorCallout errorTitle errorMsg) = false.
Proof.
  assert (H : ¬ (200 ≤ status bad_gateway ≤ 299)) by (simpl; lia).
  split; [exact H |].
  exact (document_set_failure_renders_callout bad_gateway ([], None) H).
Defined.

(** X1. With a successful document-set response whose body parses, a
    non-empty error string from the assistants fetch makes the page an error
    callout with that string in its message, and no creation form. *)
Theorem assistants_failure_renders_callout (documentSetsResponse : Response)
    (documentSets : list DocumentSet) (assistants : list Persona)
    (assistantsFetchError : string) :
  200 ≤ status documentSetsResponse ≤ 299 →
  json documentSetsResponse = Ok documentSets →
  assistantsFetchError ≠ "" →
  ∃ tree,
    Page documentSetsResponse (assistants, Some assistantsFetchError)
      = Ok tree
    ∧ tree = ErrorCallout "Something went wrong :("
               ("Failed to fetch assistants - " +:+ assistantsFetchError)
    ∧ renders is_creation_form tree = false.
Proof.
  intros [Hlo Hhi] Hjson Herr. eexists. unfold Page, ok.
  apply Z.leb_le in Hlo, Hhi. rewrite Hlo, Hhi, Hjson. simpl.
  destruct (String.eqb_spec assistantsFetchError "") as [|_]; [done |].
  simpl. done.
Qed.

Lemma assistants_failure_renders_callout_witness :
  200 ≤ status two_document_sets ≤ 299
  ∧ "Unknown Error" ≠ ""
  ∧ ∃ tree,
      Page two_document_sets ([], Some "Unknown Error") = Ok tree
      ∧ tree = ErrorCallout "Something went wrong :("
                 ("Failed to fetch assistants - " +:+ "Unknown Error")
      ∧ renders is_creation_form tree = false.
Proof.
  assert (Hs : 200 ≤ status two_document_sets ≤ 299) by (simpl; lia).
  assert (He : "Unknown Error" ≠ "") by discriminate.
  split; [exact Hs |]. split; [exact He |].
  exact (assistants_failure_renders_callout two_document_sets _ []
           "Unknown Error" Hs eq_refl He).
Defined.

(** X2. With a successful document-set response whose body parses, and an
    assistants error that is [null] or the empty string, the page renders
    the creation form, handed exactly the parsed document sets and the
    fetched assistants, and no error callout. *)
Theorem success_renders_form (documentSetsResponse : Response)
    (documentSets : list DocumentSet) (assistants : list Persona)
    (assistantsFetchError : option string) :
  200 ≤ status documentSetsResponse ≤ 299 →
  json documentSetsResponse = Ok documentSets →
  assistantsFetchError = None ∨ assistantsFetchError = Some "" →
  ∃ tree,
    Page documentSetsResponse (assistants, assistantsFetchError) = Ok tree
    ∧ SlackBotCreationForm documentSets assistants ∈ nodes tree
    ∧ (∀ documentSets' assistants',
         SlackBotCreationForm documentSets' assistants' ∈ nodes tree →
         documentSets' = documentSets ∧ assistants' = assistants)
    ∧ renders is_error_callout tree = false.
Proof.
  intros [Hlo Hhi] Hjson Herr. eexists. unfold Page, ok.
  apply Z.leb_le in Hlo, Hhi. rewrite Hlo, Hhi, Hjson. simpl.
  assert (truthy_error assistantsFetchError = false) as ->
    by (by destruct Herr as [-> | ->]).
  split_and!; [done | | | done].
  - simpl. do 4 apply list_elem_of_further. apply list_elem_of_here.
  - intros documentSets' assistants' Hin. simpl in Hin.
    repeat (apply elem_of_cons in Hin as [Hin|Hin]; [try discriminate Hin |]).
    + by injection Hin as -> ->.
    + by apply elem_of_nil in Hin.
Qed.

Lemma success_renders_form_witness :
  200 ≤ status two_document_sets ≤ 299
  ∧ ∃ tree,
      Page two_document_sets ([default_persona], Some "") = Ok tree
      ∧ SlackBotCreationForm
          [ {| ds_id := 1; ds_name := "Engineering" |};
            {| ds_id := 2; ds_name := "Support" |} ] [default_persona]
          ∈ nodes tree
      ∧ (∀ documentSets' assistants',
           SlackBotCreationForm documentSets' assistants' ∈ nodes tree →
           documentSets'
             = [ {| ds_id := 1; ds_name := "Engineering" |};
                 {| ds_id := 2; ds_name := "Support" |} ]
           ∧ assistants' = [default_persona])
      ∧ renders is_error_callout tree = false.
Proof.
  assert (Hs : 200 ≤ status two_document_sets ≤ 299) by (simpl; lia).
  split; [exact Hs |].
  exact (success_renders_form two_document_sets _ [default_persona]
           (Some "") Hs eq_refl (or_intror eq_refl)).
Defined.

(** X3. A successful document-set response whose body does not parse makes
    the page raise the parse error: no callout is rendered, also when the
    assistants fetch reported an error of its own. *)
Theorem unparsable_body_raises (documentSetsResponse : Response)
    (assistantsResponse : FetchAssistantsResponse) (e : JsError) :
  200 ≤ status documentSetsResponse ≤ 299 →
  json documentSetsResponse = Throw e →
  Page documentSetsResponse assistantsResponse = Throw e.
Proof.
  intros [Hlo Hhi] Hjson. destruct assistantsResponse as [assistants err].
  unfold Page, ok. apply Z.leb_le in Hlo, Hhi.
  by rewrite Hlo, Hhi, Hjson.
Qed.

Lemma unparsable_body_raises_witness :
  200 ≤ status truncated_body ≤ 299
  ∧ Page truncated_body ([], Some "Unknown Error")
    = Throw (SyntaxError "Unexpected end of JSON input").
Proof.
  assert (Hs : 200 ≤ status truncated_body ≤ 299) by (simpl; lia).
  split; [exact Hs |].
  exact (unparsable_body_raises truncated_body ([], Some "Unknown Error") _
           Hs eq_refl).
Defined.

(** X4. Whatever the two fetches returned, a tree the page returns holds
    either the creation form or an error callout, never both and never
    neither; the form is there exactly when the response is successful and
    the assistants error is falsy. *)
Theorem form_or_callout (documentSetsResponse : Response)
    (assistants : list Persona) (assistantsFetchError : option string)
    (tree : Element) :
  Page documentSetsResponse (assistants, assistantsFetchError) = Ok tree →
  renders is_creation_form tree = negb (renders is_error_callout tree)
  ∧ renders is_creation_form tree
    = ok documentSetsResponse && negb (truthy_error assistantsFetchError).
Proof.
  unfold Page. destruct (ok documentSetsResponse); simpl.
  - destruct (json documentSetsResponse) as [documentSets|e]; simpl;
      [| discriminate].
    destruct (truthy_error assistantsFetchError); by intros [= <-].
  - by intros [= <-].
Qed.

Lemma form_or_callout_witness :
  Page two_document_sets ([default_persona], None)
    = Ok (Container
            [ BackButton;
              AdminPageTitle "New Slack Bot Config";
              Text "Define a new configuration below! This config will determine how Darwin behaves in the specified channels.";
              SlackBotCreationForm
                [ {| ds_id := 1; ds_name := "Engineering" |};
                  {| ds_id := 2; ds_name := "Support" |} ]
                [default_persona] ])
  ∧ renders is_creation_form
      (Container
         [ BackButton;
           AdminPageTitle "New Slack Bot Config";
           Text "Define a new configuration below! This config will determine how Darwin behaves in the specified channels.";
           SlackBotCreationForm
             [ {| ds_id := 1; ds_name := "Engineering" |};
               {| ds_id := 2; ds_name := "Support" |} ]
             [default_persona] ])
    = true.
Proof.
  split; [reflexivity |].
  exact (eq_trans
           (proj2 (form_or_callout two_document_sets [default_persona] None
                     _ eq_refl))
           eq_refl).
Defined.

End SlackBotConfigNew_properties.

(** ** The "Salesforce KB Articles" connector page *)

Section SfKbArticles_properties.
Import SfKbArticles.

(** *** The credential search *)

(** What the probe reads off a payload. *)
Lemma sf_username_probe_value (c : Credential) :
  sf_username_probe c
  = Ok match credential_json c with
       | JsObject props => default JsUndefined (props !! "sf_username")
       | _ => JsUndefined
       end.
Proof. unfold sf_username_probe. by destruct (credential_json c). Qed.

Lemma sf_username_probe_truthy (c : Credential) (v : JsValue) :
  sf_username_probe c = Ok v →
  truthy v = true ↔ has_truthy_sf_username c.
Proof.
  rewrite sf_username_probe_value. intros [= <-].
  unfold has_truthy_sf_username. split.
  - destruct (credential_json c) as [| | | | |props]; try done.
    destruct (props !! "sf_username") as [v|] eqn:Hv; [|done].
    intros Ht. by exists props, v.
  - intros (props & v & -> & -> & Ht). done.
Qed.

Lemma find_step (c : Credential) (rest : list Credential) :
  SfKbArticlesCredential (c :: rest)
  = match sf_username_probe c with
    | Ok v => if truthy v then Ok (Some c) else SfKbArticlesCredential rest
    | Throw e => Throw e
    end.
Proof. reflexivity. Qed.

Lemma find_hit (c : Credential) (rest : list Credential) :
  has_truthy_sf_username c → SfKbArticlesCredential (c :: rest) = Ok (Some c).
Proof.
  intros Hc. rewrite find_step.
  destruct (sf_username_probe c) as [v|e] eqn:Hp.
  - by apply (sf_username_probe_truthy c v Hp) in Hc as ->.
  - by rewrite sf_username_probe_value in Hp.
Qed.

Lemma find_skip (c : Credential) (rest : list Credential) :
  ¬ has_truthy_sf_username c →
  SfKbArticlesCredential (c :: rest) = SfKbArticlesCredential rest.
Proof.
  intros Hc. rewrite find_step.
  destruct (sf_username_probe c) as [v|e] eqn:Hp.
  - destruct (truthy v) eqn:Ht; [|done].
    by apply (sf_username_probe_truthy c v Hp) in Ht.
  - by rewrite sf_username_probe_value in Hp.
Qed.

Lemma has_truthy_sf_username_dec (c : Credential) :
  has_truthy_sf_username c ∨ ¬ has_truthy_sf_username c.
Proof.
  destruct (sf_username_probe c) as [v|e] eqn:Hp.
  - destruct (truthy v) eqn:Ht.
    + left. by apply (sf_username_probe_truthy c v Hp).
    + right. intros Hc%(sf_username_probe_truthy c v Hp). congruence.
  - by rewrite sf_username_probe_value in Hp.
Qed.

(** The search never raises. *)
Lemma SfKbArticlesCredential_total (creds : list Credential) :
  ∃ selected, SfKbArticlesCredential creds = Ok selected.
Proof.
  induction creds as [|c rest [selected IH]]; [by exists None |].
  destruct (has_truthy_sf_username_dec c) as [Hc|Hc].
  - exists (Some c). by apply find_hit.
  - exists selected. by rewrite find_skip.
Qed.

(** It returns a credential exactly when that credential is the first one
    with a truthy username. *)
Lemma SfKbArticlesCredential_Some (creds : list Credential) (c : Credential) :
  SfKbArticlesCredential creds = Ok (Some c)
  ↔ ∃ i, first_with_username creds i c.
Proof.
  induction creds as [|x rest IH].
  - split; [done |]. by intros (i & Hi & _).
  - destruct (has_truthy_sf_username_dec x) as [Hx|Hx].
    + rewrite find_hit by done. split.
      * intros [= <-]. exists 0%nat. split_and!; [done | done |].
        intros j c' Hj. lia.
      * intros (i & Hi & Hc & Hfirst). destruct i as [|i].
        { by injection Hi as ->. }
        exfalso. apply (Hfirst 0%nat x); [lia | done | done].
    + rewrite find_skip by done. rewrite IH. split.
      * intros (i & Hi & Hc & Hfirst). exists (S i). split_and!; [done..|].
        intros [|j] c' Hj Hlook.
        { by injection Hlook as <-. }
        apply (Hfirst j c'); [lia | done].
      * intros (i & Hi & Hc & Hfirst). destruct i as [|i].
        { injection Hi as ->. done. }
        exists i. split_and!; [done..|].
        intros j c' Hj Hlook. apply (Hfirst (S j) c'); [lia | done].
Qed.

(** It returns [undefined] exactly when no credential has one. *)
Lemma SfKbArticlesCredential_None (creds : list Credential) :
  SfKbArticlesCredential creds = Ok None
  ↔ Forall (λ c, ¬ has_truthy_sf_username c) creds.
Proof.
  induction creds as [|x rest IH].
  - split; [by constructor | done].
  - destruct (has_truthy_sf_username_dec x) as [Hx|Hx].
    + rewrite find_hit by done. split; [done |].
      intros [Hx' _]%Forall_cons. done.
    + rewrite find_skip by done. rewrite IH. rewrite Forall_cons. tauto.
Qed.

(** *** The shape of a render *)

(** Step 1 reads [sf_username] off the selected credential with a plain
    property access; the selection guarantees a payload, so it cannot
    raise. *)
Lemma Step1_selected (creds : list Credential) (selected : option Credential) :
  SfKbArticlesCredential creds = Ok selected →
  ∃ step1, Step1 selected = Ok step1.
Proof.
  destruct selected as [c|]; [| by eexists].
  intros (i & _ & (props & v & Hjson & _) & _)%SfKbArticlesCredential_Some.
  unfold Step1. rewrite Hjson. by eexists.
Qed.

Lemma first_load_fetched (hooks : Hooks) statuses creds :
  fetched hooks statuses creds → first_load hooks = false.
Proof. intros (Hs & _ & Hc & _). unfold first_load. by rewrite Hs, Hc. Qed.

Lemma MainSection_fetched (hooks : Hooks) statuses creds :
  fetched hooks statuses creds →
  ∃ selected step1,
    SfKbArticlesCredential creds = Ok selected
    ∧ Step1 selected = Ok step1
    ∧ MainSection hooks = Ok (MainView statuses selected step1).
Proof.
  intros Hf. pose proof (first_load_fetched _ _ _ Hf) as Hload.
  destruct Hf as (Hs & Hes & Hc & Hec).
  destruct (SfKbArticlesCredential_total creds) as [selected Hsel].
  destruct (Step1_selected creds selected Hsel) as [step1 Hstep1].
  exists selected, step1. split_and!; [done..|].
  unfold MainSection. fold (first_load hooks).
  rewrite Hload, Hs, Hes, Hc, Hec. simpl. rewrite Hsel. simpl.
  by rewrite Hstep1.
Qed.

(** The four outcomes of a render, in the order of the guards. *)
Lemma MainSection_cases (hooks : Hooks) :
  (first_load hooks = true
   ∧ MainSection hooks = Ok (LoadingAnimation "Loading"))
  ∨ (first_load hooks = false ∧ statuses_failed hooks = true
     ∧ MainSection hooks = Ok (Div [Str "Failed to load connectors"]))
  ∨ (first_load hooks = false ∧ statuses_failed hooks = false
     ∧ credentials_failed hooks = true
     ∧ MainSection hooks = Ok (Div [Str "Failed to load credentials"]))
  ∨ (∃ statuses creds, fetched hooks statuses creds).
Proof.
  unfold MainSection, statuses_failed, credentials_failed, fetched.
  fold (first_load hooks).
  destruct (first_load hooks); [by left |].
  right.
  destruct (connectorIndexingStatuses hooks) as [statuses|].
  2: { left. split_and!; [done | | done]. apply orb_true_r. }
  destruct (truthy (isConnectorIndexingStatusesError hooks)).
  { by left. }
  right.
  destruct (credentialsData hooks) as [creds|].
  2: { left. split_and!; [done | done | | done]. apply orb_true_r. }
  destruct (truthy (isCredentialsError hooks)).
  { by left. }
  right. by exists statuses, creds.
Qed.

(** A render that returns a tree with a form, a table or a button in it
    is a render of the main view. *)
Lemma MainSection_main_view (hooks : Hooks) (tree x : Element) :
  MainSection hooks = Ok tree →
  x ∈ nodes tree →
  is_credential_form x || is_connector_form x
    || is_connectors_table x || is_button x = true →
  ∃ statuses creds selected step1,
    fetched hooks statuses creds
    ∧ SfKbArticlesCredential creds = Ok selected
    ∧ Step1 selected = Ok step1
    ∧ tree = MainView statuses selected step1.
Proof.
  intros Htree Hx Hkind.
  destruct (MainSection_cases hooks)
    as [(_ & H)|[(_ & _ & H)|[(_ & _ & _ & H)|(statuses & creds & Hf)]]].
  1-3: rewrite H in Htree; injection Htree as <-; simpl in Hx;
       repeat (apply elem_of_cons in Hx as [->|Hx]; [done |]);
       by apply elem_of_nil in Hx.
  destruct (MainSection_fetched _ _ _ Hf) as (selected & step1 & ? & ? & H).
  rewrite H in Htree. injection Htree as <-.
  by exists statuses, creds, selected, step1.
Qed.

(** Case analysis on the membership of an element in a computed list of
    nodes: every branch whose head is another constructor is closed. *)
Ltac node_cases H :=
  repeat first
    [ apply elem_of_nil in H; contradiction
    | apply elem_of_cons in H as [H|H]; [try discriminate H |] ].

Ltac open_view Hstep1 selected :=
  destruct selected as [?c|]; unfold Step1 in Hstep1;
  [ destruct (get_prop (credential_json c) "sf_username") as [?v|?e];
    [| discriminate Hstep1] |];
  injection Hstep1 as <-;
  unfold MainView, Step2Table;
  case_bool_decide; simpl.

Lemma connector_form_in_view statuses selected step1 props :
  Step1 selected = Ok step1 →
  ConnectorForm props ∈ nodes (MainView statuses selected step1) →
  ∃ c, selected = Some c ∧ props = connectorForm_props c.
Proof.
  intros Hstep1. open_view Hstep1 selected; intros Hx; node_cases Hx.
  all: injection Hx as ->; by eexists.
Qed.

Lemma connectors_table_in_view statuses selected step1 props :
  Step1 selected = Ok step1 →
  ConnectorsTable props ∈ nodes (MainView statuses selected step1) →
  props = connectorsTable_props
            (SalesforceConnectorIndexingStatuses statuses) selected
  ∧ (0 < length (SalesforceConnectorIndexingStatuses statuses))%nat.
Proof.
  intros Hstep1. open_view Hstep1 selected; intros Hx; node_cases Hx.
  all: by injection Hx as ->.
Qed.

Lemma button_in_view statuses selected step1 onClick children :
  Step1 selected = Ok step1 →
  Button onClick children ∈ nodes (MainView statuses selected step1) →
  ∃ c, selected = Some c ∧ onClick = deleteCredential_onClick c.
Proof.
  intros Hstep1. open_view Hstep1 selected; intros Hx; node_cases Hx.
  all: injection Hx as -> _; by eexists.
Qed.

(** The page wraps the main section in a banner and a title: its forms,
    tables and buttons are those of the main section. *)
Lemma Page_nodes (hooks : Hooks) (tree x : Element) :
  MainSection hooks = Ok tree →
  ∃ page,
    Page hooks = Ok page
    ∧ (x ∈ nodes page
       ↔ x = page ∨ x = Div [HealthCheckBanner] ∨ x = HealthCheckBanner
         ∨ x = AdminPageTitle "Salesforce KB Articles" ∨ x ∈ nodes tree).
Proof.
  intros Htree. unfold Page. rewrite Htree. eexists. split; [done |].
  change (nodes (Div ?children))
    with (Div children :: concat (map nodes children)).
  unfold map, concat. simpl.
  rewrite !elem_of_cons, elem_of_app, elem_of_nil. tauto.
Qed.

(** *** The filter on the indexing statuses *)

(** Every list of statuses is a merge of its records of other sources
    with its Salesforce records. *)
Lemma interleave_by_source (statuses : list ConnectorIndexingStatus) :
  interleave
    (filter (λ s, source (connector s) ≠ "salesforce") statuses)
    (filter (λ s, source (connector s) = "salesforce") statuses)
    statuses.
Proof.
  induction statuses as [|s rest IH]; [constructor |].
  destruct (decide (source (connector s) = "salesforce")) as [Hs|Hs].
  - rewrite (filter_cons_True (λ s, source (connector s) = "salesforce"))
      by done.
    rewrite (filter_cons_False (λ s, source (connector s) ≠ "salesforce"))
      by (intros H; by apply H).
    by constructor.
  - rewrite (filter_cons_False (λ s, source (connector s) = "salesforce"))
      by done.
    rewrite (filter_cons_True (λ s, source (connector s) ≠ "salesforce"))
      by done.
    by constructor.
Qed.

(** C3. The filter keeps exactly the statuses whose connector source is
    "salesforce": when the input merges N records of other sources with M
    Salesforce records, the result is the list of the M Salesforce
    records, in their input order. *)
Theorem salesforce_filter_exact
    (statuses others matching : list ConnectorIndexingStatus) :
  interleave others matching statuses →
  Forall (λ s, source (connector s) ≠ "salesforce") others →
  Forall (λ s, source (connector s) = "salesforce") matching →
  SalesforceConnectorIndexingStatuses statuses = matching
  ∧ length (SalesforceConnectorIndexingStatuses statuses) = length matching
  ∧ (∀ s, s ∈ SalesforceConnectorIndexingStatuses statuses
          ↔ s ∈ statuses ∧ source (connector s) = "salesforce")
  ∧ SalesforceConnectorIndexingStatuses statuses `sublist_of` statuses.
Proof.
  intros Hmerge Hothers Hmatching.
  assert (Heq : SalesforceConnectorIndexingStatuses statuses = matching).
  { unfold SalesforceConnectorIndexingStatuses.
    induction Hmerge as [|x l1 l2 l Hmerge IH|x l1 l2 l Hmerge IH].
    - done.
    - apply Forall_cons in Hothers as [Hx Hothers].
      rewrite filter_cons_False by done. by apply IH.
    - apply Forall_cons in Hmatching as [Hx Hmatching].
      rewrite filter_cons_True by done. f_equal. by apply IH. }
  split_and!.
  - done.
  - by rewrite Heq.
  - intros s. unfold SalesforceConnectorIndexingStatuses.
    rewrite list_elem_of_filter. tauto.
  - apply sublist_filter.
Qed.

Lemma salesforce_filter_exact_witness :
  interleave [web_status; sfkbarticles_status] [salesforce_status]
             [web_status; salesforce_status; sfkbarticles_status]
  ∧ SalesforceConnectorIndexingStatuses
      [web_status; salesforce_status; sfkbarticles_status]
    = [salesforce_status].
Proof.
  assert (Hmerge : interleave [web_status; sfkbarticles_status]
                     [salesforce_status]
                     [web_status; salesforce_status; sfkbarticles_status])
    by repeat constructor.
  split; [exact Hmerge |].
  refine (proj1 (salesforce_filter_exact _ _ _ Hmerge _ _)).
  - repeat constructor; simpl; discriminate.
  - repeat constructor.
Defined.

(** *** The main view *)

(** C8. A connector form in the rendered tree is wired with the id of the
    selected credential and with a poll interval of 10 * 60 = 600
    seconds. *)
Theorem connector_form_wiring (hooks : Hooks) (tree : Element)
    (props : ConnectorFormProps) :
  MainSection hooks = Ok tree →
  ConnectorForm props ∈ nodes tree →
  ∃ creds c,
    credentialsData hooks = Some creds
    ∧ SfKbArticlesCredential creds = Ok (Some c)
    ∧ credentialId props = id c
    ∧ refreshFreq props = 600.
Proof.
  intros Htree Hin.
  destruct (MainSection_main_view hooks tree _ Htree Hin)
    as (statuses & creds & selected & step1 & Hf & Hsel & Hstep1 & ->);
    [done |].
  destruct (connector_form_in_view _ _ _ _ Hstep1 Hin) as (c & -> & ->).
  exists creds, c. destruct Hf as (_ & _ & Hc & _). done.
Qed.

(** C9. In a rendered table, whose rows are the Salesforce statuses, the
    value of the "Connectors" column for a status is the list
    [requested_objects] of its connector's configuration, its elements
    joined by commas. *)
Theorem connectors_column_joins_requested_objects (hooks : Hooks)
    (tree : Element) (props : ConnectorsTableProps) :
  MainSection hooks = Ok tree →
  ConnectorsTable props ∈ nodes tree →
  ∃ statuses column,
    connectorIndexingStatuses hooks = Some statuses
    ∧ ct_connectorIndexingStatuses props
      = SalesforceConnectorIndexingStatuses statuses
    ∧ specialColumns props = [column]
    ∧ header column = "Connectors"
    ∧ ∀ ccPairStatus,
        ccPairStatus ∈ ct_connectorIndexingStatuses props →
        getValue column ccPairStatus
        = String.concat ","
            (requested_objects
               (connector_specific_config (connector ccPairStatus))).
Proof.
  intros Htree Hin.
  destruct (MainSection_main_view hooks tree _ Htree Hin)
    as (statuses & creds & selected & step1 & Hf & Hsel & Hstep1 & ->);
    [done |].
  destruct (connectors_table_in_view _ _ _ _ Hstep1 Hin) as [-> _].
  destruct Hf as (Hs & _).
  exists statuses. eexists.
  split_and!; [done | reflexivity | reflexivity | reflexivity |].
  intros ccPairStatus _. simpl. apply Array_join_concat.
Qed.

(** Where the parts of the main view sit in its list of nodes. *)
Lemma nodes_MainView statuses selected step1 (x : Element) :
  x ∈ nodes (MainView statuses selected step1)
  ↔ x = MainView statuses selected step1
    ∨ x ∈ nodes Intro ∨ x ∈ nodes Step1Title ∨ x ∈ nodes step1
    ∨ x ∈ nodes Step2Title
    ∨ x ∈ nodes (Step2Table (SalesforceConnectorIndexingStatuses statuses)
                   selected)
    ∨ x ∈ nodes (Step2Form selected).
Proof.
  unfold MainView at 1.
  change (nodes (Fragment ?children))
    with (Fragment children :: concat (map nodes children)).
  rewrite elem_of_cons. unfold map, concat.
  rewrite !elem_of_app, elem_of_nil. unfold MainView. tauto.
Qed.

Lemma MainSection_configured : MainSection configured = Ok configured_tree.
Proof. vm_compute. reflexivity. Qed.

Lemma connector_form_in_configured :
  ConnectorForm (connectorForm_props sf_credential) ∈ nodes configured_tree.
Proof.
  apply nodes_MainView. do 6 right. simpl.
  apply list_elem_of_further, list_elem_of_here.
Qed.

Lemma connectors_table_in_configured :
  ConnectorsTable
    (connectorsTable_props [salesforce_status] (Some sf_credential))
    ∈ nodes configured_tree.
Proof.
  apply nodes_MainView. do 5 right; left.
  change (SalesforceConnectorIndexingStatuses [web_status; salesforce_status])
    with [salesforce_status].
  unfold Step2Table. simpl.
  do 4 apply list_elem_of_further. apply list_elem_of_here.
Qed.

Lemma button_in_configured :
  Button (deleteCredential_onClick sf_credential) [TrashIcon]
    ∈ nodes configured_tree.
Proof.
  apply nodes_MainView. do 3 right; left.
  change (step1_of (Some sf_credential))
    with (Fragment
            [ Div [ Text [Str "Existing SalesForce Username: "];
                    Text [Expr (JsString "admin@example.com")];
                    Button (deleteCredential_onClick sf_credential)
                      [TrashIcon] ] ]).
  simpl. do 6 apply list_elem_of_further. apply list_elem_of_here.
Qed.

Lemma connector_form_wiring_witness :
  MainSection configured = Ok configured_tree
  ∧ ConnectorForm (connectorForm_props sf_credential)
      ∈ nodes configured_tree
  ∧ ∃ creds c,
      credentialsData configured = Some creds
      ∧ SfKbArticlesCredential creds = Ok (Some c)
      ∧ credentialId (connectorForm_props sf_credential) = id c
      ∧ refreshFreq (connectorForm_props sf_credential) = 600.
Proof.
  split_and!;
    [exact MainSection_configured | exact connector_form_in_configured |].
  exact (connector_form_wiring configured configured_tree _
           MainSection_configured connector_form_in_configured).
Defined.

Lemma connectors_column_joins_requested_objects_witness :
  MainSection configured = Ok configured_tree
  ∧ ConnectorsTable
      (connectorsTable_props [salesforce_status] (Some sf_credential))
      ∈ nodes configured_tree
  ∧ ∃ statuses column,
      connectorIndexingStatuses configured = Some statuses
      ∧ ct_connectorIndexingStatuses
          (connectorsTable_props [salesforce_status] (Some sf_credential))
        = SalesforceConnectorIndexingStatuses statuses
      ∧ specialColumns
          (connectorsTable_props [salesforce_status] (Some sf_credential))
        = [column]
      ∧ header column = "Connectors"
      ∧ ∀ ccPairStatus,
          ccPairStatus
            ∈ ct_connectorIndexingStatuses
                (connectorsTable_props [salesforce_status]
                   (Some sf_credential)) →
          getValue column ccPairStatus
          = String.concat ","
              (requested_objects
                 (connector_specific_config (connector ccPairStatus))).
Proof.
  split_and!;
    [exact MainSection_configured | exact connectors_table_in_configured |].
  exact (connectors_column_joins_requested_objects configured
           configured_tree _ MainSection_configured
           connectors_table_in_configured).
Defined.

(** The column on the sample status. *)
Example connectors_column_sample :
  getValue
    {| header := "Connectors"; key := "connectors";
       getValue := λ s,
         Array_toString
           (requested_objects (connector_specific_config (connector s))) |}
    salesforce_status
  = "Orchestrator,Studio".
Proof. reflexivity. Qed.


Lemma selected_of_member (creds : list Credential) (c : Credential) :
  c ∈ creds → has_truthy_sf_username c →
  ∃ c', SfKbArticlesCredential creds = Ok (Some c').
Proof.
  intros Hin Hc.
  destruct (SfKbArticlesCredential_total creds) as [[c'|] Hsel];
    [by exists c' |].
  apply SfKbArticlesCredential_None in Hsel.
  rewrite Forall_forall in Hsel. by destruct (Hsel c Hin).
Qed.


Lemma fetched_hooks_of statuses creds :
  fetched (hooks_of statuses creds) statuses creds.
Proof. by repeat split. Qed.

Lemma sf_credential_has_username : has_truthy_sf_username sf_credential.
Proof. eexists _, (JsString "admin@example.com"). by split_and!. Qed.



(** *** Credential selection *)

(** The selection on sample lists: a later match is ignored. *)
Example selection_takes_first :
  SfKbArticlesCredential
    [ github_credential; empty_credential; sf_credential;
      {| id := 9;
         credential_json :=
           JsObject {[ "sf_username" := JsString "second@example.com" ]} |} ]
  = Ok (Some sf_credential).
Proof. vm_compute. reflexivity. Qed.

(** C10. A credential whose payload is [null] or [undefined] makes the
    probe evaluate to [undefined], a non-match: wherever it stands in the
    list, the search does not raise, does not select it, and returns what
    it returns without that entry. *)
Theorem missing_payload_is_skipped (c : Credential)
    (before after : list Credential) :
  credential_json c = JsNull ∨ credential_json c = JsUndefined →
  sf_username_probe c = Ok JsUndefined
  ∧ truthy JsUndefined = false
  ∧ ∃ selected,
      SfKbArticlesCredential (before ++ c :: after) = Ok selected
      ∧ selected ≠ Some c
      ∧ SfKbArticlesCredential (before ++ after) = Ok selected.
Proof.
  intros Hjson.
  assert (Hprobe : sf_username_probe c = Ok JsUndefined).
  { unfold sf_username_probe. by destruct Hjson as [-> | ->]. }
  assert (Hc : ¬ has_truthy_sf_username c).
  { intros (props & v & Hobj & _). destruct Hjson; congruence. }
  split_and!; [done | done |].
  destruct (SfKbArticlesCredential_total (before ++ c :: after))
    as [selected Hsel].
  exists selected. split_and!; [done | |].
  - intros ->. by apply SfKbArticlesCredential_Some in Hsel as (i & _ & ? & _).
  - rewrite <- Hsel. clear Hsel.
    induction before as [|x before IH]; simpl.
    + by rewrite find_skip.
    + change ((x :: before) ++ c :: after)
        with (x :: (before ++ c :: after)).
      rewrite !find_step. destruct (sf_username_probe x) as [v|e]; [|done].
      by destruct (truthy v).
Qed.

Lemma missing_payload_is_skipped_witness :
  (credential_json empty_credential = JsNull
   ∨ credential_json empty_credential = JsUndefined)
  ∧ sf_username_probe empty_credential = Ok JsUndefined
  ∧ truthy JsUndefined = false
  ∧ ∃ selected,
      SfKbArticlesCredential
        ([github_credential] ++ empty_credential :: [sf_credential])
        = Ok selected
      ∧ selected ≠ Some empty_credential
      ∧ SfKbArticlesCredential ([github_credential] ++ [sf_credential])
        = Ok selected.
Proof.
  assert (H : credential_json empty_credential = JsNull
              ∨ credential_json empty_credential = JsUndefined)
    by (left; reflexivity).
  split; [exact H |].
  exact (missing_payload_is_skipped empty_credential [github_credential]
           [sf_credential] H).
Defined.

(** Without the optional chaining the same payloads raise. *)
Example plain_access_raises :
  get_prop JsNull "sf_username"
    = Throw (TypeError "Cannot read properties of null")
  ∧ get_prop JsUndefined "sf_username"
    = Throw (TypeError "Cannot read properties of undefined").
Proof. by split. Qed.

(** *** The source tag of created connectors *)

(** C4. A rendered connector form carries the source tag "sfkbarticles".
    A status whose connector has the tag the form submits is never kept by
    the filter, so no later render lists it in its table. *)
Theorem created_connector_never_listed (hooks : Hooks) (tree : Element)
    (props : ConnectorFormProps) (created : ConnectorIndexingStatus) :
  MainSection hooks = Ok tree →
  ConnectorForm props ∈ nodes tree →
  source (connector created) = cf_source props →
  cf_source props = "sfkbarticles"
  ∧ (∀ statuses, created ∉ SalesforceConnectorIndexingStatuses statuses)
  ∧ (∀ hooks' tree' table,
       MainSection hooks' = Ok tree' →
       ConnectorsTable table ∈ nodes tree' →
       created ∉ ct_connectorIndexingStatuses table).
Proof.
  intros Htree Hin Hsource.
  destruct (MainSection_main_view hooks tree _ Htree Hin)
    as (statuses & creds & selected & step1 & Hf & Hsel & Hstep1 & ->);
    [done |].
  destruct (connector_form_in_view _ _ _ _ Hstep1 Hin) as (c & -> & ->).
  simpl in Hsource.
  assert (Hfilter : ∀ statuses',
            created ∉ SalesforceConnectorIndexingStatuses statuses').
  { intros statuses' [Hsf _]%list_elem_of_filter. congruence. }
  split_and!; [done | done |].
  intros hooks' tree' table Htree' Hin'.
  destruct (MainSection_main_view hooks' tree' _ Htree' Hin')
    as (statuses' & creds' & selected' & step1' & _ & _ & Hstep1' & ->);
    [done |].
  destruct (connectors_table_in_view _ _ _ _ Hstep1' Hin') as [-> _].
  apply Hfilter.
Qed.

Lemma created_connector_never_listed_witness :
  MainSection configured = Ok configured_tree
  ∧ ConnectorForm (connectorForm_props sf_credential)
      ∈ nodes configured_tree
  ∧ source (connector sfkbarticles_status)
    = cf_source (connectorForm_props sf_credential)
  ∧ cf_source (connectorForm_props sf_credential) = "sfkbarticles"
  ∧ (∀ statuses,
       sfkbarticles_status ∉ SalesforceConnectorIndexingStatuses statuses)
  ∧ (∀ hooks' tree' table,
       MainSection hooks' = Ok tree' →
       ConnectorsTable table ∈ nodes tree' →
       sfkbarticles_status ∉ ct_connectorIndexingStatuses table).
Proof.
  split; [exact MainSection_configured |].
  split; [exact connector_form_in_configured |].
  split; [reflexivity |].
  exact (created_connector_never_listed configured configured_tree
           (connectorForm_props sf_credential) sfkbarticles_status
           MainSection_configured connector_form_in_configured eq_refl).
Defined.

(** *** Deleting the credential *)

(** C5, as the code has it.  A click on a rendered button runs, when the
    deletion call completes, exactly this sequence: the deletion call for the id of the
    selected credential, its completion, then one credential re-fetch. *)
Theorem delete_then_refresh (hooks : Hooks) (tree : Element)
    (onClick : Async) (children : list Element)
    (env : Effect → Settlement) :
  MainSection hooks = Ok tree →
  Button onClick children ∈ nodes tree →
  (∀ credentialId, env (adminDeleteCredential credentialId) = Fulfilled) →
  ∃ creds c,
    credentialsData hooks = Some creds
    ∧ SfKbArticlesCredential creds = Ok (Some c)
    ∧ run env onClick
      = ( [ Invoked (adminDeleteCredential (id c));
            Settled (adminDeleteCredential (id c)) Fulfilled;
            Invoked refreshCredentials ],
          Fulfilled ).
Proof.
  intros Htree Hin Henv.
  destruct (MainSection_main_view hooks tree _ Htree Hin)
    as (statuses & creds & selected & step1 & Hf & Hsel & Hstep1 & ->);
    [done |].
  destruct (button_in_view _ _ _ _ _ Hstep1 Hin) as (c & -> & ->).
  exists creds, c. destruct Hf as (_ & _ & Hc & _).
  split_and!; [done | done |].
  simpl. by rewrite Henv.
Qed.

Lemma delete_then_refresh_witness :
  MainSection configured = Ok configured_tree
  ∧ Button (deleteCredential_onClick sf_credential) [TrashIcon]
      ∈ nodes configured_tree
  ∧ (∀ credentialId,
       all_fulfilled (adminDeleteCredential credentialId) = Fulfilled)
  ∧ ∃ creds c,
      credentialsData configured = Some creds
      ∧ SfKbArticlesCredential creds = Ok (Some c)
      ∧ run all_fulfilled (deleteCredential_onClick sf_credential)
        = ( [ Invoked (adminDeleteCredential (id c));
              Settled (adminDeleteCredential (id c)) Fulfilled;
              Invoked refreshCredentials ],
            Fulfilled ).
Proof.
  split_and!;
    [ exact MainSection_configured | exact button_in_configured
    | reflexivity | ].
  exact (delete_then_refresh configured configured_tree
           (deleteCredential_onClick sf_credential) [TrashIcon]
           all_fulfilled MainSection_configured button_in_configured
           (λ _, eq_refl)).
Defined.

(** When the deletion call rejects, the handler stops there: no re-fetch
    is triggered. *)
Example delete_rejected_no_refresh :
  run delete_rejected (deleteCredential_onClick sf_credential)
  = ( [ Invoked (adminDeleteCredential 7);
        Settled (adminDeleteCredential 7) Rejected ],
      Rejected ).
Proof. reflexivity. Qed.

(** *** Failed fetches *)

Lemma fetched_not_failed (hooks : Hooks) statuses creds :
  fetched hooks statuses creds →
  statuses_failed hooks = false ∧ credentials_failed hooks = false.
Proof.
  intros (Hs & Hes & Hc & Hec). unfold statuses_failed, credentials_failed.
  by rewrite Hs, Hes, Hc, Hec.
Qed.

(** C7, as the code has it.  Once no fetch is on its first load, a fetch
    that reports an error or has no data makes the render a single fixed
    message, "Failed to load connectors" for the indexing statuses and
    otherwise "Failed to load credentials", with no form and no table. *)
Theorem failure_message_after_first_load (hooks : Hooks) :
  first_load hooks = false →
  statuses_failed hooks || credentials_failed hooks = true →
  ∃ msg tree,
    MainSection hooks = Ok tree
    ∧ tree = Div [Str msg]
    ∧ msg = (if statuses_failed hooks then "Failed to load connectors"
             else "Failed to load credentials")
    ∧ renders is_credential_form tree = false
    ∧ renders is_connector_form tree = false
    ∧ renders is_connectors_table tree = false.
Proof.
  intros Hload Hfailed.
  destruct (MainSection_cases hooks)
    as [(Hl & _)|[(_ & Hs & H)|[(_ & Hs & Hc & H)|(statuses & creds & Hf)]]].
  - congruence.
  - rewrite Hs. by eexists _, _.
  - rewrite Hs. by eexists _, _.
  - destruct (fetched_not_failed _ _ _ Hf) as [Hs Hc].
    by rewrite Hs, Hc in Hfailed.
Qed.

Lemma failure_message_after_first_load_witness :
  first_load credentials_error = false
  ∧ statuses_failed credentials_error || credentials_failed credentials_error
    = true
  ∧ ∃ msg tree,
      MainSection credentials_error = Ok tree
      ∧ tree = Div [Str msg]
      ∧ msg = (if statuses_failed credentials_error
               then "Failed to load connectors"
               else "Failed to load credentials")
      ∧ renders is_credential_form tree = false
      ∧ renders is_connector_form tree = false
      ∧ renders is_connectors_table tree = false.
Proof.
  split_and!; [reflexivity | reflexivity |].
  exact (failure_message_after_first_load credentials_error eq_refl eq_refl).
Defined.

(** C7, as stated, fails on [error_during_first_load]: the credentials
    fetch reports an error, and the render is the loading indicator. *)
Lemma failure_message_on_any_error_fails :
  ¬ failure_message_on_any_error error_during_first_load.
Proof.
  intros Hclaim.
  destruct Hclaim as (msg & tree & Htree & -> & _).
  - right; left. reflexivity.
  - discriminate Htree.
Qed.

(** In every state with a reported error, whichever guard answers, no
    form and no table is rendered. *)
Lemma no_form_on_error (hooks : Hooks) (tree : Element) :
  truthy (isConnectorIndexingStatusesError hooks) = true
  ∨ truthy (isCredentialsError hooks) = true →
  MainSection hooks = Ok tree →
  renders is_credential_form tree = false
  ∧ renders is_connector_form tree = false
  ∧ renders is_connectors_table tree = false.
Proof.
  intros Herr Htree.
  destruct (MainSection_cases hooks)
    as [(_ & H)|[(_ & _ & H)|[(_ & _ & _ & H)|(statuses & creds & Hf)]]].
  1-3: rewrite H in Htree; by injection Htree as <-.
  destruct Hf as (_ & Hes & _ & Hec). destruct Herr; congruence.
Qed.

(** *** Further properties of the page *)

Lemma MainSection_no_salesforce_credential :
  MainSection no_salesforce_credential = Ok no_salesforce_credential_tree.
Proof. vm_compute. reflexivity. Qed.

Lemma MainSection_connector_without_credential :
  MainSection connector_without_credential
  = Ok connector_without_credential_tree.
Proof. vm_compute. reflexivity. Qed.

(** X5. Evaluating the component function never raises: although step 1
    reads the payload with a plain property access, the function returns
    an element tree for every state of the hooks and every stored
    payload.  What the renderer later does with the children of that tree
    is not part of the statement. *)
Theorem MainSection_never_raises (hooks : Hooks) :
  ∃ tree, MainSection hooks = Ok tree.
Proof.
  destruct (MainSection_cases hooks)
    as [(_ & H)|[(_ & _ & H)|[(_ & _ & _ & H)|(statuses & creds & Hf)]]];
    [by eexists.. |].
  destruct (MainSection_fetched _ _ _ Hf) as (selected & step1 & _ & _ & H).
  by eexists.
Qed.

(** X6. The loading indicator is the render exactly when a fetch is on its
    first load: in flight with nothing cached.  A revalidation with cached
    data never shows it. *)
Theorem loading_iff_first_load (hooks : Hooks) :
  MainSection hooks = Ok (LoadingAnimation "Loading")
  ↔ (connectorIndexingStatuses hooks = None
     ∧ isConnectorIndexingStatusesLoading hooks = true)
    ∨ (credentialsData hooks = None ∧ isCredentialsLoading hooks = true).
Proof.
  assert (Hload : first_load hooks = true
                  ↔ (connectorIndexingStatuses hooks = None
                     ∧ isConnectorIndexingStatusesLoading hooks = true)
                    ∨ (credentialsData hooks = None
                       ∧ isCredentialsLoading hooks = true)).
  { unfold first_load. rewrite orb_true_iff, !andb_true_iff.
    destruct (connectorIndexingStatuses hooks), (credentialsData hooks);
      simpl; intuition congruence. }
  rewrite <- Hload.
  destruct (MainSection_cases hooks)
    as [(Hl & H)|[(Hl & _ & H)|[(Hl & _ & _ & H)|(statuses & creds & Hf)]]].
  - by rewrite H, Hl.
  - rewrite H, Hl. split; discriminate.
  - rewrite H, Hl. split; discriminate.
  - rewrite (first_load_fetched _ _ _ Hf).
    destruct (MainSection_fetched _ _ _ Hf) as (? & ? & _ & _ & ->).
    split; discriminate.
Qed.

Lemma loading_iff_first_load_witness :
  MainSection initial_load = Ok (LoadingAnimation "Loading").
Proof.
  apply (proj2 (loading_iff_first_load initial_load)).
  left. split; reflexivity.
Defined.

(** X7. When both fetches succeeded, the render is a function of the
    Salesforce statuses and of the selected credential alone: loading
    flags, falsy error values, statuses of other sources and credentials
    that are not selected do not change it. *)
Theorem render_depends_on_filter_and_selection (hooks hooks' : Hooks)
    (statuses statuses' : list ConnectorIndexingStatus)
    (creds creds' : list Credential) :
  fetched hooks statuses creds →
  fetched hooks' statuses' creds' →
  SalesforceConnectorIndexingStatuses statuses
    = SalesforceConnectorIndexingStatuses statuses' →
  SfKbArticlesCredential creds = SfKbArticlesCredential creds' →
  MainSection hooks = MainSection hooks'.
Proof.
  intros Hf Hf' Hrows Hsel.
  destruct (MainSection_fetched _ _ _ Hf) as (sel & step1 & H1 & H2 & ->).
  destruct (MainSection_fetched _ _ _ Hf') as (sel' & step1' & H1' & H2' & ->).
  assert (sel' = sel) as -> by congruence.
  assert (step1' = step1) as -> by congruence.
  unfold MainView. by rewrite Hrows.
Qed.

Lemma render_depends_on_filter_and_selection_witness :
  fetched configured [web_status; salesforce_status]
    [github_credential; sf_credential]
  ∧ fetched configured_revalidating
      [sfkbarticles_status; web_status; salesforce_status]
      [empty_credential; sf_credential; github_credential]
  ∧ MainSection configured = MainSection configured_revalidating.
Proof.
  assert (H1 : fetched configured [web_status; salesforce_status]
                 [github_credential; sf_credential])
    by apply fetched_hooks_of.
  assert (H2 : fetched configured_revalidating
                 [sfkbarticles_status; web_status; salesforce_status]
                 [empty_credential; sf_credential; github_credential])
    by (by repeat split).
  split; [exact H1 |]. split; [exact H2 |].
  exact (render_depends_on_filter_and_selection _ _ _ _ _ _ H1 H2
           eq_refl eq_refl).
Defined.

Lemma credential_form_in_view statuses selected step1 props :
  Step1 selected = Ok step1 →
  CredentialForm props ∈ nodes (MainView statuses selected step1) →
  selected = None ∧ props = credentialForm_props.
Proof.
  intros Hstep1. open_view Hstep1 selected; intros Hx; node_cases Hx.
  all: by injection Hx as ->.
Qed.

Lemma expr_in_view statuses selected step1 v :
  Step1 selected = Ok step1 →
  Expr v ∈ nodes (MainView statuses selected step1) →
  ∃ c, selected = Some c ∧ get_prop (credential_json c) "sf_username" = Ok v.
Proof.
  intros Hstep1.
  destruct selected as [c|]; unfold Step1 in Hstep1.
  - destruct (get_prop (credential_json c) "sf_username") as [v'|e] eqn:Hv;
      [| discriminate Hstep1].
    injection Hstep1 as <-. unfold MainView, Step2Table.
    case_bool_decide; simpl; intros Hx; node_cases Hx.
    all: injection Hx as ->; by exists c.
  - injection Hstep1 as <-. unfold MainView, Step2Table.
    case_bool_decide; simpl; intros Hx; node_cases Hx.
Qed.

Lemma selected_None_or_Some (creds : list Credential) selected :
  SfKbArticlesCredential creds = Ok selected →
  (selected = None ↔ Forall (λ c, ¬ has_truthy_sf_username c) creds)
  ∧ (is_Some selected ↔ ∃ c, c ∈ creds ∧ has_truthy_sf_username c).
Proof.
  intros Hsel. split.
  - rewrite <- SfKbArticlesCredential_None, Hsel.
    split; [by intros -> | by intros [= ->]].
  - split.
    + intros [c ->]. apply SfKbArticlesCredential_Some in Hsel
        as (i & Hi & Hc & _).
      exists c. split; [| done]. by eapply list_elem_of_lookup_2.
    + intros (c & Hin & Hc).
      destruct (selected_of_member creds c Hin Hc) as [c' Hsel'].
      rewrite Hsel' in Hsel. injection Hsel as <-. by eexists.
Qed.

(** X8. When both fetches succeeded, step 1 and step 2 follow the stored
    credentials: the connector form, and with it the summary of the
    existing credential, is rendered exactly when some credential has a
    truthy username, and the credential form exactly when none has. *)
Theorem wizard_follows_credentials (hooks : Hooks)
    (statuses : list ConnectorIndexingStatus) (creds : list Credential)
    (tree : Element) :
  fetched hooks statuses creds →
  MainSection hooks = Ok tree →
  (renders is_connector_form tree = true
   ↔ ∃ c, c ∈ creds ∧ has_truthy_sf_username c)
  ∧ renders is_credential_summary tree = renders is_connector_form tree
  ∧ renders is_credential_form tree = negb (renders is_connector_form tree).
Proof.
  intros Hf Htree.
  destruct (MainSection_fetched _ _ _ Hf)
    as (selected & step1 & Hsel & Hstep1 & Htree').
  rewrite Htree' in Htree. injection Htree as <-.
  destruct (selected_None_or_Some creds selected Hsel) as [_ Hsome].
  rewrite <- Hsome. clear Hsome Htree' Hsel Hf.
  destruct selected as [c|]; unfold Step1 in Hstep1.
  - destruct (get_prop (credential_json c) "sf_username") as [v|e];
      [| discriminate Hstep1].
    injection Hstep1 as <-. unfold MainView, Step2Table.
    case_bool_decide; simpl; (split_and!; [| done | done]);
      (split; [by eexists | done]).
  - injection Hstep1 as <-. unfold MainView, Step2Table.
    case_bool_decide; simpl; (split_and!; [| done | done]);
      (split; [done | by intros [? [=]]]).
Qed.

Lemma wizard_follows_credentials_witness :
  fetched no_salesforce_credential [web_status]
    [github_credential; empty_credential]
  ∧ MainSection no_salesforce_credential = Ok no_salesforce_credential_tree
  ∧ renders is_credential_form no_salesforce_credential_tree
    = negb (renders is_connector_form no_salesforce_credential_tree).
Proof.
  split; [apply fetched_hooks_of |].
  split; [exact MainSection_no_salesforce_credential |].
  exact (proj2 (proj2
           (wizard_follows_credentials no_salesforce_credential [web_status]
              [github_credential; empty_credential]
              no_salesforce_credential_tree (fetched_hooks_of _ _)
              MainSection_no_salesforce_credential))).
Defined.

(** X9. When both fetches succeeded, the summary table is rendered exactly
    when some status has the source "salesforce", whether or not a
    credential is stored; its live credential is the selected one. *)
Theorem table_follows_statuses (hooks : Hooks)
    (statuses : list ConnectorIndexingStatus) (creds : list Credential)
    (tree : Element) :
  fetched hooks statuses creds →
  MainSection hooks = Ok tree →
  (renders is_connectors_table tree = true
   ↔ ∃ s, s ∈ statuses ∧ source (connector s) = "salesforce")
  ∧ ∀ props, ConnectorsTable props ∈ nodes tree →
             SfKbArticlesCredential creds = Ok (liveCredential props).
Proof.
  intros Hf Htree.
  destruct (MainSection_fetched _ _ _ Hf)
    as (selected & step1 & Hsel & Hstep1 & Htree').
  rewrite Htree' in Htree. injection Htree as <-. split.
  - assert (Hrows : (∃ s, s ∈ statuses ∧ source (connector s) = "salesforce")
                    ↔ SalesforceConnectorIndexingStatuses statuses ≠ []).
    { unfold SalesforceConnectorIndexingStatuses. split.
      - intros (s & Hin & Hs) Hnil.
        by apply (filter_nil_not_elem_of _ _ s Hnil Hs).
      - destruct (filter _ statuses) as [|s rows] eqn:Hrows; [done |].
        intros _. exists s.
        assert (Hin : s ∈ filter
                  (λ s, source (connector s) = "salesforce") statuses)
          by (rewrite Hrows; apply list_elem_of_here).
        apply list_elem_of_filter in Hin. tauto. }
    rewrite Hrows. clear Hrows Htree' Hsel Hf.
    open_view Hstep1 selected.
    all: destruct (SalesforceConnectorIndexingStatuses statuses);
      simpl in *; try lia; (split; [done | try done]).
    all: by intros ?.
  - intros props Hin.
    by destruct (connectors_table_in_view _ _ _ _ Hstep1 Hin) as [-> _].
Qed.

Lemma connectors_table_without_credential :
  ConnectorsTable (connectorsTable_props [salesforce_status] None)
    ∈ nodes connector_without_credential_tree.
Proof.
  apply nodes_MainView. do 5 right; left.
  change (SalesforceConnectorIndexingStatuses [salesforce_status; web_status])
    with [salesforce_status].
  unfold Step2Table. simpl.
  do 4 apply list_elem_of_further. apply list_elem_of_here.
Qed.

Lemma table_follows_statuses_witness :
  fetched connector_without_credential [salesforce_status; web_status]
    [github_credential]
  ∧ MainSection connector_without_credential
    = Ok connector_without_credential_tree
  ∧ SfKbArticlesCredential [github_credential]
    = Ok (liveCredential (connectorsTable_props [salesforce_status] None)).
Proof.
  split; [apply fetched_hooks_of |].
  split; [exact MainSection_connector_without_credential |].
  exact (proj2
           (table_follows_statuses connector_without_credential
              [salesforce_status; web_status] [github_credential]
              connector_without_credential_tree (fetched_hooks_of _ _)
              MainSection_connector_without_credential)
           _ connectors_table_without_credential).
Defined.

(** *** Handlers of the table and of the forms *)

(** X10. With a selected credential, the table's credential-link handler
    calls the linking endpoint with the given connector id and the selected
    credential's id, and invalidates the indexing-status key once that call
    has completed; when the call rejects, nothing is invalidated. *)
Theorem link_then_invalidate (hooks : Hooks) (tree : Element)
    (props : ConnectorsTableProps) (c : Credential) (connectorId : Z)
    (env : Effect → Settlement) :
  MainSection hooks = Ok tree →
  ConnectorsTable props ∈ nodes tree →
  liveCredential props = Some c →
  run env (onCredentialLink props connectorId)
  = match env (linkCredential connectorId (id c)) with
    | Fulfilled =>
        ( [ Invoked (linkCredential connectorId (id c));
            Settled (linkCredential connectorId (id c)) Fulfilled;
            Invoked (mutate "/api/manage/admin/connector/indexing-status") ],
          Fulfilled )
    | Rejected =>
        ( [ Invoked (linkCredential connectorId (id c));
            Settled (linkCredential connectorId (id c)) Rejected ],
          Rejected )
    end.
Proof.
  intros Htree Hin Hlive.
  destruct (MainSection_main_view hooks tree _ Htree Hin)
    as (statuses & creds & selected & step1 & Hf & Hsel & Hstep1 & ->);
    [done |].
  destruct (connectors_table_in_view _ _ _ _ Hstep1 Hin) as [-> _].
  simpl in Hlive. subst selected. simpl.
  by destruct (env (linkCredential connectorId (id c))).
Qed.

Lemma link_then_invalidate_witness :
  MainSection configured = Ok configured_tree
  ∧ ConnectorsTable
      (connectorsTable_props [salesforce_status] (Some sf_credential))
      ∈ nodes configured_tree
  ∧ run link_rejected
      (onCredentialLink
         (connectorsTable_props [salesforce_status] (Some sf_credential)) 1)
    = ( [ Invoked (linkCredential 1 7);
          Settled (linkCredential 1 7) Rejected ],
        Rejected ).
Proof.
  split; [exact MainSection_configured |].
  split; [exact connectors_table_in_configured |].
  exact (link_then_invalidate configured configured_tree _ sf_credential 1
           link_rejected MainSection_configured
           connectors_table_in_configured eq_refl).
Defined.

(** X11. A table rendered while no credential is selected has a
    credential-link handler that makes no call at all. *)
Theorem link_without_credential_is_noop (hooks : Hooks) (tree : Element)
    (props : ConnectorsTableProps) (connectorId : Z)
    (env : Effect → Settlement) :
  MainSection hooks = Ok tree →
  ConnectorsTable props ∈ nodes tree →
  liveCredential props = None →
  run env (onCredentialLink props connectorId) = ([], Fulfilled).
Proof.
  intros Htree Hin Hlive.
  destruct (MainSection_main_view hooks tree _ Htree Hin)
    as (statuses & creds & selected & step1 & Hf & Hsel & Hstep1 & ->);
    [done |].
  destruct (connectors_table_in_view _ _ _ _ Hstep1 Hin) as [-> _].
  simpl in Hlive. by subst selected.
Qed.

Lemma link_without_credential_is_noop_witness :
  MainSection connector_without_credential
    = Ok connector_without_credential_tree
  ∧ ConnectorsTable (connectorsTable_props [salesforce_status] None)
      ∈ nodes connector_without_credential_tree
  ∧ run all_fulfilled
      (onCredentialLink (connectorsTable_props [salesforce_status] None) 1)
    = ([], Fulfilled).
Proof.
  split; [exact MainSection_connector_without_credential |].
  split; [exact connectors_table_without_credential |].
  exact (link_without_credential_is_noop connector_without_credential
           connector_without_credential_tree _ 1 all_fulfilled
           MainSection_connector_without_credential
           connectors_table_without_credential eq_refl).
Defined.

(** X12. The handlers of a rendered table never delete a credential and
    never re-fetch the credentials: whatever the environment, the update
    handler makes the single call that invalidates the indexing-status key,
    and every call of the credential-link handler is a linking call for the
    given connector or that same invalidation. *)
Theorem table_handlers_scope (hooks : Hooks) (tree : Element)
    (props : ConnectorsTableProps) (connectorId : Z)
    (env : Effect → Settlement) :
  MainSection hooks = Ok tree →
  ConnectorsTable props ∈ nodes tree →
  invoked (run env (onUpdate props)).1
    = [mutate "/api/manage/admin/connector/indexing-status"]
  ∧ ∀ e, e ∈ invoked (run env (onCredentialLink props connectorId)).1 →
         e = mutate "/api/manage/admin/connector/indexing-status"
         ∨ ∃ credentialId, e = linkCredential connectorId credentialId.
Proof.
  intros Htree Hin.
  destruct (MainSection_main_view hooks tree _ Htree Hin)
    as (statuses & creds & selected & step1 & Hf & Hsel & Hstep1 & ->);
    [done |].
  destruct (connectors_table_in_view _ _ _ _ Hstep1 Hin) as [-> _].
  split; [done |].
  intros e. simpl. destruct selected as [c|]; simpl.
  - destruct (env (linkCredential connectorId (id c))); simpl;
      intros He; node_cases He; subst; eauto.
  - intros He. by apply elem_of_nil in He.
Qed.

Lemma table_handlers_scope_witness :
  MainSection configured = Ok configured_tree
  ∧ ConnectorsTable
      (connectorsTable_props [salesforce_status] (Some sf_credential))
      ∈ nodes configured_tree
  ∧ invoked
      (run all_fulfilled
         (onUpdate
            (connectorsTable_props [salesforce_status]
               (Some sf_credential)))).1
    = [mutate "/api/manage/admin/connector/indexing-status"].
Proof.
  split; [exact MainSection_configured |].
  split; [exact connectors_table_in_configured |].
  exact (proj1
           (table_handlers_scope configured configured_tree _ 1
              all_fulfilled MainSection_configured
              connectors_table_in_configured)).
Defined.

Lemma credential_form_in_no_salesforce_credential :
  CredentialForm credentialForm_props ∈ nodes no_salesforce_credential_tree.
Proof.
  apply nodes_MainView. do 3 right; left.
  change (step1_of None)
    with (Fragment
            [ Text [Str "As a first step, please provide the Salesforce account's client_id, client_secret, username and password."];
              Card [CredentialForm credentialForm_props] ]).
  simpl. do 4 apply list_elem_of_further. apply list_elem_of_here.
Qed.

(** X13. The submit callback of a rendered credential form re-fetches the
    credentials once after a successful submission and makes no call after
    a failed one; in neither case does it touch the indexing statuses. *)
Theorem credential_form_submit (hooks : Hooks) (tree : Element)
    (props : CredentialFormProps) (env : Effect → Settlement) :
  MainSection hooks = Ok tree →
  CredentialForm props ∈ nodes tree →
  run env (onSubmit props true) = ([Invoked refreshCredentials], Fulfilled)
  ∧ run env (onSubmit props false) = ([], Fulfilled).
Proof.
  intros Htree Hin.
  destruct (MainSection_main_view hooks tree _ Htree Hin)
    as (statuses & creds & selected & step1 & Hf & Hsel & Hstep1 & ->);
    [done |].
  by destruct (credential_form_in_view _ _ _ _ Hstep1 Hin) as [_ ->].
Qed.

Lemma credential_form_submit_witness :
  MainSection no_salesforce_credential = Ok no_salesforce_credential_tree
  ∧ CredentialForm credentialForm_props
      ∈ nodes no_salesforce_credential_tree
  ∧ run all_fulfilled (onSubmit credentialForm_props true)
    = ([Invoked refreshCredentials], Fulfilled)
  ∧ run all_fulfilled (onSubmit credentialForm_props false)
    = ([], Fulfilled).
Proof.
  split; [exact MainSection_no_salesforce_credential |].
  split; [exact credential_form_in_no_salesforce_credential |].
  exact (credential_form_submit no_salesforce_credential
           no_salesforce_credential_tree credentialForm_props all_fulfilled
           MainSection_no_salesforce_credential
           credential_form_in_no_salesforce_credential).
Defined.

(** X14. When the deletion call rejects, the click handler of a rendered
    button stops after it: the credentials are not re-fetched, and the
    handler itself rejects. *)
Theorem delete_rejected_skips_refresh (hooks : Hooks) (tree : Element)
    (onClick : Async) (children : list Element)
    (env : Effect → Settlement) :
  MainSection hooks = Ok tree →
  Button onClick children ∈ nodes tree →
  (∀ credentialId, env (adminDeleteCredential credentialId) = Rejected) →
  (refreshCredentials ∉ invoked (run env onClick).1)
  ∧ (run env onClick).2 = Rejected
  ∧ ∃ credentialId,
      invoked (run env onClick).1 = [adminDeleteCredential credentialId].
Proof.
  intros Htree Hin Henv.
  destruct (MainSection_main_view hooks tree _ Htree Hin)
    as (statuses & creds & selected & step1 & Hf & Hsel & Hstep1 & ->);
    [done |].
  destruct (button_in_view _ _ _ _ _ Hstep1 Hin) as (c & -> & ->).
  simpl. rewrite Henv. simpl. split_and!; [| done | by eexists].
  intros He. node_cases He.
Qed.

Lemma delete_rejected_skips_refresh_witness :
  MainSection configured = Ok configured_tree
  ∧ Button (deleteCredential_onClick sf_credential) [TrashIcon]
      ∈ nodes configured_tree
  ∧ (∀ credentialId,
       delete_rejected (adminDeleteCredential credentialId) = Rejected)
  ∧ refreshCredentials
      ∉ invoked
          (run delete_rejected (deleteCredential_onClick sf_credential)).1.
Proof.
  split; [exact MainSection_configured |].
  split; [exact button_in_configured |].
  split; [reflexivity |].
  exact (proj1
           (delete_rejected_skips_refresh configured configured_tree
              (deleteCredential_onClick sf_credential) [TrashIcon]
              delete_rejected MainSection_configured button_in_configured
              (λ _, eq_refl))).
Defined.

(** *** What the main view shows and hands on *)

(** X15. A value shown by the page is the [sf_username] field of the
    selected credential's payload, and it is truthy: the summary never
    shows an absent or empty username. *)
Theorem displayed_username (hooks : Hooks) (tree : Element) (v : JsValue) :
  MainSection hooks = Ok tree →
  Expr v ∈ nodes tree →
  ∃ creds c fields,
    credentialsData hooks = Some creds
    ∧ SfKbArticlesCredential creds = Ok (Some c)
    ∧ credential_json c = JsObject fields
    ∧ fields !! "sf_username" = Some v
    ∧ truthy v = true.
Proof.
  intros Htree Hin.
  destruct (MainSection_cases hooks)
    as [(_ & H)|[(_ & _ & H)|[(_ & _ & _ & H)|(statuses & creds & Hf)]]].
  1-3: rewrite H in Htree; injection Htree as <-; simpl in Hin;
       node_cases Hin.
  destruct (MainSection_fetched _ _ _ Hf)
    as (selected & step1 & Hsel & Hstep1 & H).
  rewrite H in Htree. injection Htree as <-.
  destruct (expr_in_view _ _ _ _ Hstep1 Hin) as (c & -> & Hv).
  pose proof Hsel as (i & _ & (fields & v' & Hjson & Hfield & Ht) & _)
    %SfKbArticlesCredential_Some.
  rewrite Hjson in Hv. simpl in Hv. rewrite Hfield in Hv.
  injection Hv as <-.
  exists creds, c, fields. destruct Hf as (_ & _ & Hc & _). done.
Qed.

Lemma username_in_configured :
  Expr (JsString "admin@example.com") ∈ nodes configured_tree.
Proof.
  apply nodes_MainView. do 3 right; left.
  change (step1_of (Some sf_credential))
    with (Fragment
            [ Div [ Text [Str "Existing SalesForce Username: "];
                    Text [Expr (JsString "admin@example.com")];
                    Button (deleteCredential_onClick sf_credential)
                      [TrashIcon] ] ]).
  simpl. do 5 apply list_elem_of_further. apply list_elem_of_here.
Qed.

Lemma displayed_username_witness :
  MainSection configured = Ok configured_tree
  ∧ Expr (JsString "admin@example.com") ∈ nodes configured_tree
  ∧ ∃ creds c fields,
      credentialsData configured = Some creds
      ∧ SfKbArticlesCredential creds = Ok (Some c)
      ∧ credential_json c = JsObject fields
      ∧ fields !! "sf_username" = Some (JsString "admin@example.com")
      ∧ truthy (JsString "admin@example.com") = true.
Proof.
  split; [exact MainSection_configured |].
  split; [exact username_in_configured |].
  exact (displayed_username configured configured_tree _
           MainSection_configured username_in_configured).
Defined.

(** X16. The table's [getCredential] reads the client secret with a plain
    property access: it raises exactly on a credential whose payload is
    [null] or [undefined], never on the live credential, and on an object
    payload it returns the [sf_client_secret] field, [undefined] when the
    field is absent. *)
Theorem getCredential_behaviour (hooks : Hooks) (tree : Element)
    (props : ConnectorsTableProps) (c : Credential) :
  MainSection hooks = Ok tree →
  ConnectorsTable props ∈ nodes tree →
  ((∃ e, getCredential props c = Throw e)
   ↔ credential_json c = JsNull ∨ credential_json c = JsUndefined)
  ∧ (liveCredential props = Some c → ∃ v, getCredential props c = Ok v)
  ∧ (∀ fields,
       credential_json c = JsObject fields →
       getCredential props c
       = Ok (default JsUndefined (fields !! "sf_client_secret"))).
Proof.
  intros Htree Hin.
  destruct (MainSection_main_view hooks tree _ Htree Hin)
    as (statuses & creds & selected & step1 & Hf & Hsel & Hstep1 & ->);
    [done |].
  destruct (connectors_table_in_view _ _ _ _ Hstep1 Hin) as [-> _].
  simpl. split_and!.
  - destruct (credential_json c); simpl; split;
      first [ by intros [? [=]] | by intros [[=]|[=]] | by eauto ].
  - intros ->.
    apply SfKbArticlesCredential_Some in Hsel
      as (i & _ & (fields & v & -> & _) & _).
    by eexists.
  - by intros fields ->.
Qed.

Lemma getCredential_behaviour_witness :
  MainSection configured = Ok configured_tree
  ∧ ConnectorsTable
      (connectorsTable_props [salesforce_status] (Some sf_credential))
      ∈ nodes configured_tree
  ∧ ∃ e,
      getCredential
        (connectorsTable_props [salesforce_status] (Some sf_credential))
        empty_credential
      = Throw e.
Proof.
  split; [exact MainSection_configured |].
  split; [exact connectors_table_in_configured |].
  exact (proj2
           (proj1
              (getCredential_behaviour configured configured_tree _
                 empty_credential MainSection_configured
                 connectors_table_in_configured))
           (or_introl eq_refl)).
Defined.

(** X17. A rendered connector form names the connector and the
    connector-credential pair alike: "SfKbArticles" for an empty list of
    requested objects, as for the form's initial values, and otherwise
    "SfKbArticles-" followed by the requested objects joined by "-". *)
Theorem connector_names (hooks : Hooks) (tree : Element)
    (props : ConnectorFormProps) (values : SfKbArticlesConfig) :
  MainSection hooks = Ok tree →
  ConnectorForm props ∈ nodes tree →
  ccPairNameBuilder props values = nameBuilder props values
  ∧ nameBuilder props values
    = (if decide (requested_objects values = []) then "SfKbArticles"
       else "SfKbArticles-" +:+ String.concat "-" (requested_objects values))
  ∧ nameBuilder props (cf_initialValues props) = "SfKbArticles".
Proof.
  intros Htree Hin.
  destruct (MainSection_main_view hooks tree _ Htree Hin)
    as (statuses & creds & selected & step1 & Hf & Hsel & Hstep1 & ->);
    [done |].
  destruct (connector_form_in_view _ _ _ _ Hstep1 Hin) as (c & -> & ->).
  split_and!; [done | | done].
  simpl. unfold sfKbArticles_name.
  destruct (requested_objects values) as [|x rest]; [done |].
  rewrite Array_join_concat. by case_bool_decide; [| simpl in *; lia].
Qed.

Lemma connector_names_witness :
  MainSection configured = Ok configured_tree
  ∧ ConnectorForm (connectorForm_props sf_credential)
      ∈ nodes configured_tree
  ∧ nameBuilder (connectorForm_props sf_credential)
      {| requested_objects := ["Orchestrator"; "Studio"] |}
    = "SfKbArticles-Orchestrator-Studio".
Proof.
  split; [exact MainSection_configured |].
  split; [exact connector_form_in_configured |].
  exact (proj1 (proj2
           (connector_names configured configured_tree _
              {| requested_objects := ["Orchestrator"; "Studio"] |}
              MainSection_configured connector_form_in_configured))).
Defined.

(** X18. The names are not injective: two requested objects and the single
    requested object made of both with a "-" between them get the same
    connector name. *)
Theorem connector_names_collide (hooks : Hooks) (tree : Element)
    (props : ConnectorFormProps) (a b : string) :
  MainSection hooks = Ok tree →
  ConnectorForm props ∈ nodes tree →
  nameBuilder props {| requested_objects := [a; b] |}
  = nameBuilder props {| requested_objects := [a +:+ "-" +:+ b] |}.
Proof.
  intros Htree Hin.
  destruct (MainSection_main_view hooks tree _ Htree Hin)
    as (statuses & creds & selected & step1 & Hf & Hsel & Hstep1 & ->);
    [done |].
  destruct (connector_form_in_view _ _ _ _ Hstep1 Hin) as (c & -> & ->).
  simpl. unfold sfKbArticles_name. simpl.
  by rewrite !Array_join_concat.
Qed.

Lemma connector_names_collide_witness :
  MainSection configured = Ok configured_tree
  ∧ ConnectorForm (connectorForm_props sf_credential)
      ∈ nodes configured_tree
  ∧ nameBuilder (connectorForm_props sf_credential)
      {| requested_objects := ["Automation"; "Hub"] |}
    = nameBuilder (connectorForm_props sf_credential)
        {| requested_objects := ["Automation-Hub"] |}.
Proof.
  split; [exact MainSection_configured |].
  split; [exact connector_form_in_configured |].
  exact (connector_names_collide configured configured_tree _
           "Automation" "Hub" MainSection_configured
           connector_form_in_configured).
Defined.

Lemma renders_frame (what : Element → bool) (main : Element) :
  (∀ children, what (Div children) = false) →
  what HealthCheckBanner = false →
  (∀ title, what (AdminPageTitle title) = false) →
  renders what
    (Div [ Div [HealthCheckBanner];
           AdminPageTitle "Salesforce KB Articles";
           main ])
  = renders what main.
Proof.
  intros Hdiv Hbanner Htitle. unfold renders.
  change (nodes (Div ?children))
    with (Div children :: concat (map nodes children)).
  unfold map, concat.
  change (nodes (Div [HealthCheckBanner]))
    with [Div [HealthCheckBanner]; HealthCheckBanner].
  change (nodes (AdminPageTitle ?t)) with [AdminPageTitle t].
  rewrite app_nil_r. simpl. by rewrite !Hdiv, Hbanner, Htitle.
Qed.

(** X19. For every state of the hooks, loading and failure included, the
    component functions of the page and of the main section return their
    trees, and the page's tree holds the health-check banner and the title
    "Salesforce KB Articles" around the main section's tree, whose forms
    and table are the only ones in it.  What the renderer later does with
    the children of that tree is not part of the statement. *)
Theorem Page_frame (hooks : Hooks) :
  ∃ page main,
    Page hooks = Ok page
    ∧ MainSection hooks = Ok main
    ∧ HealthCheckBanner ∈ nodes page
    ∧ AdminPageTitle "Salesforce KB Articles" ∈ nodes page
    ∧ renders is_credential_form page = renders is_credential_form main
    ∧ renders is_connector_form page = renders is_connector_form main
    ∧ renders is_connectors_table page = renders is_connectors_table main.
Proof.
  destruct (MainSection_cases hooks)
    as [(_ & H)|[(_ & _ & H)|[(_ & _ & _ & H)|(statuses & creds & Hf)]]].
  4: destruct (MainSection_fetched _ _ _ Hf) as (? & ? & _ & _ & H).
  all: unfold Page; rewrite H; eexists _, _;
    (split; [reflexivity |]); (split; [reflexivity |]).
  all: split;
    [ do 2 apply list_elem_of_further; apply list_elem_of_here |].
  all: split;
    [ do 3 apply list_elem_of_further; apply list_elem_of_here |].
  all: by rewrite !renders_frame.
Qed.

(** *** The selected credential on the page *)

Lemma find_first_match (before after : list Credential) (c : Credential) :
  Forall (λ c', ¬ has_truthy_sf_username c') before →
  has_truthy_sf_username c →
  SfKbArticlesCredential (before ++ c :: after) = Ok (Some c).
Proof.
  intros Hbefore Hc.
  induction Hbefore as [|x before Hx Hbefore IH]; simpl.
  - by apply find_hit.
  - change ((x :: before) ++ c :: after) with (x :: (before ++ c :: after)).
    by rewrite find_skip.
Qed.

Lemma fetched_with_credentials (hooks : Hooks) statuses creds creds' :
  fetched hooks statuses creds →
  fetched (with_credentials hooks creds') statuses creds'.
Proof. intros (Hs & Hes & _ & Hec). by repeat split. Qed.

(** Two fetched states with the same statuses render alike when the
    search returns the same credential on both lists. *)
Lemma MainSection_with_credentials (hooks : Hooks) statuses creds creds' :
  fetched hooks statuses creds →
  SfKbArticlesCredential creds' = SfKbArticlesCredential creds →
  MainSection hooks = MainSection (with_credentials hooks creds').
Proof.
  intros Hf Hsame.
  pose proof (fetched_with_credentials _ _ _ creds' Hf) as Hf'.
  destruct (MainSection_fetched _ _ _ Hf) as (sel & step1 & H1 & H2 & ->).
  destruct (MainSection_fetched _ _ _ Hf') as (sel' & step1' & H1' & H2' & ->).
  assert (sel' = sel) as -> by congruence.
  by assert (step1' = step1) as -> by congruence.
Qed.

(** C2, as the code has it.  When both fetches succeeded, the credential
    the page works with is the first one of the fetched list with a truthy
    username: the summary shows its username, the delete button and the
    connector form carry its id, the table gets it as live credential, and
    the render is the one of that credential stored alone, so that later
    matches and credentials without a username are ignored.  When no
    credential has a truthy username, the render shows the credential form
    and no summary of an existing credential, as with no credential
    stored. *)
Theorem first_match_is_the_page_credential (hooks : Hooks)
    (statuses : list ConnectorIndexingStatus) (creds : list Credential) :
  fetched hooks statuses creds →
  ∃ tree,
    MainSection hooks = Ok tree
    ∧ (∀ before c after,
         creds = before ++ c :: after →
         Forall (λ c', ¬ has_truthy_sf_username c') before →
         has_truthy_sf_username c →
         renders is_credential_summary tree = true
         ∧ renders is_credential_form tree = false
         ∧ (∃ v, Expr v ∈ nodes tree)
         ∧ (∀ v, Expr v ∈ nodes tree →
                 get_prop (credential_json c) "sf_username" = Ok v)
         ∧ Button (deleteCredential_onClick c) [TrashIcon] ∈ nodes tree
         ∧ (∀ onClick children,
              Button onClick children ∈ nodes tree →
              onClick = deleteCredential_onClick c)
         ∧ ConnectorForm (connectorForm_props c) ∈ nodes tree
         ∧ (∀ props, ConnectorForm props ∈ nodes tree →
                     props = connectorForm_props c)
         ∧ (∀ props, ConnectorsTable props ∈ nodes tree →
                     liveCredential props = Some c)
         ∧ MainSection hooks = MainSection (with_credentials hooks [c]))
    ∧ (Forall (λ c, ¬ has_truthy_sf_username c) creds →
       renders is_credential_form tree = true
       ∧ renders is_credential_summary tree = false
       ∧ MainSection hooks = MainSection (with_credentials hooks [])).
Proof.
  intros Hf.
  destruct (MainSection_fetched _ _ _ Hf)
    as (selected & step1 & Hsel & Hstep1 & Htree).
  exists (MainView statuses selected step1). split; [done |]. split.
  - intros before c after -> Hbefore Hc.
    rewrite (find_first_match before after c Hbefore Hc) in Hsel.
    injection Hsel as <-.
    assert (Halone : MainSection hooks
                     = MainSection (with_credentials hooks [c])).
    { apply (MainSection_with_credentials _ _ _ _ Hf).
      rewrite (find_first_match before after c Hbefore Hc).
      by apply find_hit. }
    pose proof Hstep1 as Hshape. unfold Step1 in Hshape.
    destruct (get_prop (credential_json c) "sf_username") as [v|e] eqn:Hv;
      [| discriminate Hshape].
    injection Hshape as <-.
    split_and!.
    + unfold MainView, Step2Table. by case_bool_decide.
    + unfold MainView, Step2Table. by case_bool_decide.
    + exists v. apply nodes_MainView. do 3 right; left. simpl.
      do 5 apply list_elem_of_further. apply list_elem_of_here.
    + intros v' Hin.
      destruct (expr_in_view _ _ _ _ Hstep1 Hin) as (c' & [= <-] & Hv').
      congruence.
    + apply nodes_MainView. do 3 right; left. simpl.
      do 6 apply list_elem_of_further. apply list_elem_of_here.
    + intros onClick children Hin.
      by destruct (button_in_view _ _ _ _ _ Hstep1 Hin) as (c' & [= <-] & ->).
    + apply nodes_MainView. do 6 right. simpl.
      apply list_elem_of_further, list_elem_of_here.
    + intros props Hin.
      by destruct (connector_form_in_view _ _ _ _ Hstep1 Hin)
        as (c' & [= <-] & ->).
    + intros props Hin.
      by destruct (connectors_table_in_view _ _ _ _ Hstep1 Hin) as [-> _].
    + done.
  - intros Hnone.
    assert (Hempty : MainSection hooks
                     = MainSection (with_credentials hooks [])).
    { apply (MainSection_with_credentials _ _ _ _ Hf).
      symmetry. by apply SfKbArticlesCredential_None. }
    apply SfKbArticlesCredential_None in Hnone.
    rewrite Hnone in Hsel. injection Hsel as <-.
    injection Hstep1 as <-.
    split_and!; [| | done]; unfold MainView, Step2Table; by case_bool_decide.
Qed.

Lemma github_credential_no_username :
  ¬ has_truthy_sf_username github_credential.
Proof. intros (fields & v & [= <-] & Hv & _). discriminate Hv. Qed.

Lemma empty_credential_no_username :
  ¬ has_truthy_sf_username empty_credential.
Proof. by intros (fields & v & [=] & _). Qed.

Lemma first_match_is_the_page_credential_witness :
  (fetched two_salesforce_credentials [salesforce_status]
     ([github_credential; empty_credential]
        ++ sf_credential :: [second_sf_credential])
   ∧ Forall (λ c', ¬ has_truthy_sf_username c')
       [github_credential; empty_credential]
   ∧ has_truthy_sf_username sf_credential
   ∧ ∃ tree,
       MainSection two_salesforce_credentials = Ok tree
       ∧ renders is_credential_summary tree = true
       ∧ Button (deleteCredential_onClick sf_credential) [TrashIcon]
           ∈ nodes tree
       ∧ ConnectorForm (connectorForm_props sf_credential) ∈ nodes tree
       ∧ MainSection two_salesforce_credentials
         = MainSection
             (with_credentials two_salesforce_credentials [sf_credential]))
  ∧ (fetched no_salesforce_credential [web_status]
       [github_credential; empty_credential]
     ∧ Forall (λ c, ¬ has_truthy_sf_username c)
         [github_credential; empty_credential]
     ∧ ∃ tree,
         MainSection no_salesforce_credential = Ok tree
         ∧ renders is_credential_form tree = true
         ∧ renders is_credential_summary tree = false).
Proof.
  assert (Hnone : Forall (λ c, ¬ has_truthy_sf_username c)
                    [github_credential; empty_credential]).
  { repeat constructor;
      [apply github_credential_no_username
      | apply empty_credential_no_username]. }
  split.
  - split; [apply fetched_hooks_of |]. split; [exact Hnone |].
    split; [apply sf_credential_has_username |].
    destruct (first_match_is_the_page_credential
                two_salesforce_credentials [salesforce_status] _
                (fetched_hooks_of _ _))
      as (tree & Htree & Hmatch & _).
    destruct (Hmatch [github_credential; empty_credential] sf_credential
                [second_sf_credential] eq_refl Hnone
                sf_credential_has_username)
      as (Hsummary & _ & _ & _ & Hbutton & _ & Hform & _ & _ & Halone).
    exists tree. by split_and!.
  - split; [apply fetched_hooks_of |]. split; [exact Hnone |].
    destruct (first_match_is_the_page_credential
                no_salesforce_credential [web_status] _
                (fetched_hooks_of _ _))
      as (tree & Htree & _ & Hno).
    destruct (Hno Hnone) as (Hform & Hsummary & _).
    exists tree. by split_and!.
Defined.

(** C2, as stated, fails on [status_fetch_failed]: no fetched credential
    has a username, and the render is the failure message of the
    indexing-status fetch, without the credential form. *)
Lemma first_match_selected_in_every_state_fails :
  ¬ first_match_selected_in_every_state status_fetch_failed.
Proof.
  intros Hclaim.
  destruct (Hclaim [github_credential; empty_credential] eq_refl)
    as [_ Hpage].
  destruct Hpage as (tree & Htree & Hform & _).
  - repeat constructor;
      [apply github_credential_no_username
      | apply empty_credential_no_username].
  - vm_compute in Htree. injection Htree as <-. discriminate Hform.
Qed.

(** C5, as stated, fails on [configured] when the deletion call rejects:
    the click makes the deletion call and no re-fetch. *)
Lemma every_click_deletes_then_refetches_fails :
  ¬ every_click_deletes_then_refetches configured delete_rejected.
Proof.
  intros Hclaim.
  destruct (Hclaim configured_tree _ _ MainSection_configured
              button_in_configured)
    as (creds & c & _ & _ & Hcalls).
  discriminate Hcalls.
Qed.

End SfKbArticles_properties.

(** ** The tooltip wrappers *)

Section AdminComponents_properties.
Import AdminComponents.

(** X20. The trigger hands every prop it received to the primitive
    unchanged, and adds ["button"] as [type] only when [type] is absent or
    [undefined]; any other given [type], [null] included, passes
    through. *)
Theorem TooltipTrigger_forwards (props : gmap string JsValue)
    (ref : JsValue) :
  TooltipTrigger props ref
  = TooltipPrimitive_Trigger ref
      (<[ "type" := match props !! "type" with
                    | None | Some JsUndefined => JsString "button"
                    | Some type => type
                    end ]> props).
Proof.
  unfold TooltipTrigger, prop_default, prop. f_equal.
  apply map_eq. intros k. rewrite lookup_union.
  destruct (decide (k = "type")) as [-> | Hk].
  - rewrite lookup_delete_eq, lookup_singleton_eq, lookup_insert_eq.
    by destruct (props !! "type") as [[]|].
  - rewrite lookup_delete_ne, lookup_singleton_ne, lookup_insert_ne by done.
    by destruct (props !! k).
Qed.

(** X21. The content panel always gets the merged class string and a side
    offset (4 unless one is given): the spread of the remaining props
    cannot replace them, [width] and [backgroundColor] are not handed on,
    and every other prop is handed on unchanged. *)
Theorem TooltipContent_attrs (cn : list JsValue → string)
    (props : gmap string JsValue) (ref : JsValue) :
  ∃ attrs,
    TooltipContent cn props ref = TooltipPrimitive_Content ref attrs
    ∧ attrs !! "className"
      = Some (JsString
                (cn [ JsString
                        (tooltip_classes (prop props "backgroundColor")
                           (prop props "width"));
                      prop props "className" ]))
    ∧ attrs !! "sideOffset"
      = Some (match props !! "sideOffset" with
              | None | Some JsUndefined => JsNumber 4
              | Some sideOffset => sideOffset
              end)
    ∧ attrs !! "width" = None
    ∧ attrs !! "backgroundColor" = None
    ∧ ∀ k, k ∉ ["className"; "sideOffset"; "width"; "backgroundColor"] →
           attrs !! k = props !! k.
Proof.
  eexists. split; [reflexivity |].
  split_and!.
  - rewrite lookup_union, lookup_delete_eq, lookup_insert_ne by done.
    by rewrite lookup_singleton_eq.
  - rewrite lookup_union, lookup_delete_ne, lookup_delete_eq by done.
    rewrite lookup_insert_eq. unfold prop_default, prop.
    by destruct (props !! "sideOffset") as [[]|].
  - rewrite lookup_union, !lookup_delete_ne, lookup_delete_eq by done.
    rewrite lookup_insert_ne, lookup_singleton_ne by done. done.
  - rewrite lookup_union, !lookup_delete_ne, lookup_delete_eq by done.
    rewrite lookup_insert_ne, lookup_singleton_ne by done. done.
  - intros k Hk.
    assert (k ≠ "className" ∧ k ≠ "sideOffset" ∧ k ≠ "width"
            ∧ k ≠ "backgroundColor") as (H1 & H2 & H3 & H4).
    { rewrite !not_elem_of_cons in Hk. tauto. }
    rewrite lookup_union, !lookup_delete_ne by done.
    rewrite lookup_insert_ne, lookup_singleton_ne by done.
    by destruct (props !! k).
Qed.

Lemma TooltipContent_attrs_witness :
  ¬ ("side" ∈ ["className"; "sideOffset"; "width"; "backgroundColor"])
  ∧ ∃ attrs,
      TooltipContent join_truthy
        (<[ "side" := JsString "top" ]>
           {[ "className" := JsString "z-50" ]})
        JsNull
      = TooltipPrimitive_Content JsNull attrs
      ∧ attrs !! "sideOffset" = Some (JsNumber 4)
      ∧ attrs !! "side" = Some (JsString "top").
Proof.
  assert (Hk : ¬ ("side"
                  ∈ ["className"; "sideOffset"; "width"; "backgroundColor"])).
  { rewrite !not_elem_of_cons. split_and!; try discriminate.
    apply not_elem_of_nil. }
  split; [exact Hk |].
  destruct (TooltipContent_attrs join_truthy
              (<[ "side" := JsString "top" ]>
                 {[ "className" := JsString "z-50" ]}) JsNull)
    as (attrs & Heq & _ & Hoffset & _ & _ & Hrest).
  exists attrs. split; [| split; [exact Hoffset | exact (Hrest "side" Hk)]].
  exact Heq.
Defined.

(** X22. A falsy [backgroundColor] or [width], the empty string for one,
    gives the same element as leaving the prop out: the default classes
    are used. *)
Theorem falsy_override_is_omitted (cn : list JsValue → string)
    (props : gmap string JsValue) (ref : JsValue) (k : string)
    (v : JsValue) :
  k = "backgroundColor" ∨ k = "width" →
  truthy v = false →
  TooltipContent cn (<[ k := v ]> props) ref
  = TooltipContent cn (delete k props) ref.
Proof.
  intros Hk Hv. unfold TooltipContent.
  assert (Hclasses :
    tooltip_classes (prop (<[k:=v]> props) "backgroundColor")
      (prop (<[k:=v]> props) "width")
    = tooltip_classes (prop (delete k props) "backgroundColor")
        (prop (delete k props) "width")).
  { unfold tooltip_classes, prop, js_or.
    destruct Hk as [-> | ->].
    - rewrite lookup_insert_eq, lookup_delete_eq. simpl. rewrite Hv.
      by rewrite lookup_insert_ne, lookup_delete_ne by done.
    - rewrite lookup_insert_eq, lookup_delete_eq. simpl. rewrite Hv.
      by rewrite lookup_insert_ne, lookup_delete_ne by done. }
  assert (Hother : ∀ k', k' = "className" ∨ k' = "sideOffset" →
            <[k:=v]> props !! k' = delete k props !! k').
  { intros k' Hk'.
    rewrite lookup_insert_ne, lookup_delete_ne; [done | |];
      destruct Hk as [-> | ->], Hk' as [-> | ->]; done. }
  cbv zeta. rewrite Hclasses. unfold prop_default, prop.
  rewrite !Hother by auto.
  f_equal. f_equal.
  apply map_eq. intros k'.
  rewrite !lookup_delete, !lookup_insert.
  repeat case_decide; subst; try done; destruct Hk; congruence.
Qed.

Lemma falsy_override_is_omitted_witness :
  ("backgroundColor" = "backgroundColor" ∨ "backgroundColor" = "width")
  ∧ truthy (JsString "") = false
  ∧ TooltipContent join_truthy
      (<[ "backgroundColor" := JsString "" ]>
         {[ "className" := JsString "z-50" ]}) JsNull
    = TooltipContent join_truthy
        (delete "backgroundColor" {[ "className" := JsString "z-50" ]})
        JsNull.
Proof.
  split; [left; reflexivity |]. split; [reflexivity |].
  exact (falsy_override_is_omitted join_truthy
           {[ "className" := JsString "z-50" ]} JsNull "backgroundColor"
           (JsString "") (or_introl eq_refl) eq_refl).
Defined.

End AdminComponents_properties.
